(** * BDNS scraper: the crawl-and-persist loop of [scraper.py] and the resume
    point of [resume_scraper.py], embedded as executable definitions.

    Python values are modelled as JSON trees, Python dicts as insertion-ordered
    association lists, DataFrames as lists of rows, the [data/] directory as a
    finite map from years to datasets, and exceptions as an error result.

    Conventions of the model:
    - JSON numbers are integers; identifiers are compared structurally;
    - [datetime.strptime] and [int] on strings are parameters of the
      development; two instances on ASCII input let the model run;
    - the network is a list of responses, one per call of [requests.get], so
      the [while] loop of [run] is a recursion on that list;
    - the outcome of each execution of the [try] block of [save_to_parquet]
      (any exception raised by pandas or pyarrow in it) is chosen by the
      world; a failed attempt leaves the dataset file as it was;
    - a keyboard interrupt arrives during the blocking request. *)

From Stdlib Require Import ZArith Lia Ascii String ssreflect.
From stdpp Require Import base option list strings gmap.

Open Scope general_if_scope.
Set Warnings "-rewrite-rw".


(** ** Python values *)

#[warnings="-register-all"]
Inductive json : Type :=
| JNull
| JBool (b : bool)
| JInt (z : Z)
| JStr (s : string)
| JArr (items : list json)
| JObj (members : list (string * json)).

(** A Python [dict] with string keys, in insertion order. *)
Abbreviation py_dict := (list (string * json)).

Definition json_eq_dec : ∀ x y : json, {x = y} + {x ≠ y}.
Proof.
  fix IH 1.
  intros x y; decide equality.
  - apply bool_dec.
  - apply Z.eq_dec.
  - apply String.string_dec.
  - apply (List.list_eq_dec IH).
  - apply List.list_eq_dec. intros [k1 v1] [k2 v2].
    destruct (String.string_dec k1 k2) as [->|Hk]; [|right; congruence].
    destruct (IH v1 v2) as [->|Hv]; [left; reflexivity|right; congruence].
Defined.

#[global] Instance json_eq_decision : EqDecision json := json_eq_dec.

(** Truth value of a Python object, as [if x:] and [not x] test it. *)
Definition truthy (j : json) : bool :=
  match j with
  | JNull => false
  | JBool b => b
  | JInt z => negb (z =? 0)%Z
  | JStr s => negb (String.eqb s "")
  | JArr l => negb (bool_decide (l = []))
  | JObj d => negb (bool_decide (d = []))
  end.

(** ** Exceptions *)

Inductive exn : Type := AttributeError | TypeError | ValueError | OverflowError.

Inductive result (A : Type) : Type :=
| Ok (a : A)
| Raise (e : exn).
Arguments Ok {A} a.
Arguments Raise {A} e.

#[global] Instance result_bind : MBind result := λ A B k m,
  match m with Ok a => k a | Raise e => Raise e end.

Fixpoint mapM {A B} (f : A → result B) (l : list A) : result (list B) :=
  match l with
  | [] => Ok []
  | a :: t => b ← f a ; bs ← mapM f t ; Ok (b :: bs)
  end.

(** ** Dict operations *)

Section Dict.
Context {K V : Type} `{EqDecision K}.

(** [d.get(k)], with [None] as an option. *)
Fixpoint dict_get (d : list (K * V)) (k : K) : option V :=
  match d with
  | [] => None
  | (k', v) :: t => if decide (k = k') then Some v else dict_get t k
  end.

(** [d[k] = v]: overwrite in place, or append a new key at the end. *)
Fixpoint dict_set (d : list (K * V)) (k : K) (v : V) : list (K * V) :=
  match d with
  | [] => [(k, v)]
  | (k', v') :: t =>
      if decide (k = k') then (k, v) :: t else (k', v') :: dict_set t k v
  end.

(** [d.keys()] *)
Definition dict_keys (d : list (K * V)) : list K := fst <$> d.
End Dict.

(** [d.get(k)] *)
Definition get (d : py_dict) (k : string) : json := default JNull (dict_get d k).

(** [d.get(k, dflt)] *)
Definition get_default (d : py_dict) (k : string) (dflt : json) : json :=
  default dflt (dict_get d k).

(** [x.get(k)] on an arbitrary object: only dicts have the method. *)
Definition attr_get (x : json) (k : string) : result json :=
  match x with
  | JObj d => Ok (get d k)
  | _ => Raise AttributeError
  end.

(** Iterating a Python object, as [itertools.product] does on each argument. *)
Definition py_iter (x : json) : result (list json) :=
  match x with
  | JArr l => Ok l
  | JObj d => Ok (JStr <$> dict_keys d)
  | JStr s => Ok ((λ a, JStr (String a EmptyString)) <$> String.list_ascii_of_string s)
  | _ => Raise TypeError
  end.

(** ** Flattened rows *)

Abbreviation row := (list (string * json)) (only parsing).

Definition base_keys : list string :=
  [ "id"; "codigoBDNS"; "fechaRecepcion"; "sedeElectronica"; "tipoConvocatoria";
    "presupuestoTotal"; "mrr"; "descripcion"; "descripcionLeng";
    "descripcionFinalidad"; "descripcionBasesReguladoras"; "urlBasesReguladoras";
    "sePublicaDiarioOficial"; "abierto"; "fechaInicioSolicitud";
    "fechaFinSolicitud"; "textInicio"; "textFin" ].

(** The single-element placeholder [[{}]]. *)
Definition placeholder : json := JArr [JObj []].

(** [x = data.get(k, [{}])] followed by [if not x: x = [{}]]. *)
Definition dimension (d : py_dict) (k : string) : json :=
  let x := get_default d k placeholder in
  if truthy x then x else placeholder.

(** [itertools.product(a, b, c, d)]: the rightmost argument varies fastest. *)
Definition product4 (a b c d : json)
  : result (list (json * json * json * json)) :=
  la ← py_iter a ; lb ← py_iter b ; lc ← py_iter c ; ld ← py_iter d ;
  Ok (x ← la; y ← lb; z ← lc; w ← ld; [(x, y, z, w)]).

(** Body of the loop over the product. *)
Definition make_row (base : py_dict) (t : json * json * json * json)
  : result row :=
  let '(inst, benef, sector, region) := t in
  let r := base in
  v ← attr_get inst "descripcion" ;
  let r := dict_set r "instrumento_descripcion" v in
  v ← attr_get benef "descripcion" ;
  let r := dict_set r "tipoBeneficiario_descripcion" v in
  v ← attr_get sector "descripcion" ;
  let r := dict_set r "sector_descripcion" v in
  v ← attr_get sector "codigo" ;
  let r := dict_set r "sector_codigo" v in
  v ← attr_get region "descripcion" ;
  let r := dict_set r "region_descripcion" v in
  Ok r.

Section Scraper.

(** [datetime.strptime(s, '%Y-%m-%d').year], [None] where it raises. *)
Variable strptime_year : string → option Z.

(** The [year] entry of [base_data]: [None] for a falsy date, and for any
    exception the bare [except] swallows (a date that is not a string, a
    string that does not parse). *)
Definition year_of (fecha : json) : json :=
  if truthy fecha then
    match fecha with
    | JStr s => match strptime_year s with Some y => JInt y | None => JNull end
    | _ => JNull
    end
  else JNull.

Definition transform_data (data : json) : result (list row) :=
  match data with
  | JObj d =>
      let base_data := (λ k, (k, get d k)) <$> base_keys in
      let organo := get_default d "organo" (JObj []) in
      n1 ← attr_get organo "nivel1" ;
      let base_data := dict_set base_data "organo_nivel1" n1 in
      n2 ← attr_get organo "nivel2" ;
      let base_data := dict_set base_data "organo_nivel2" n2 in
      n3 ← attr_get organo "nivel3" ;
      let base_data := dict_set base_data "organo_nivel3" n3 in
      let base_data :=
        dict_set base_data "year" (year_of (get base_data "fechaRecepcion")) in
      let instrumentos := dimension d "instrumentos" in
      let tipos_beneficiarios := dimension d "tiposBeneficiarios" in
      let sectores := dimension d "sectores" in
      let regiones := dimension d "regiones" in
      combos ← product4 instrumentos tipos_beneficiarios sectores regiones ;
      mapM (make_row base_data) combos
  | _ => Raise AttributeError
  end.

(** ** DataFrames and the year-partitioned buffer *)

(** The identifier column of a row. *)
Definition codigo (r : row) : json := get r "codigoBDNS".

(** [df.drop_duplicates(subset=['codigoBDNS'], keep='last')]: a row stays
    when no later row has its identifier. *)
Fixpoint drop_duplicates_last (df : list row) : list row :=
  match df with
  | [] => []
  | r :: t =>
      if bool_decide (codigo r ∈ codigo <$> t) then drop_duplicates_last t
      else r :: drop_duplicates_last t
  end.

Record scraper : Type := mkScraper {
  start_bdns : Z;
  current_bdns : Z;
  consecutive_404s : Z;
  dataframes_by_year : list (Z * list row);
  total_records : Z;
  total_requests : Z
}.

(** [BDNSScraper(start_bdns)] *)
Definition init (start : Z) : scraper :=
  mkScraper start start 0 [] 0 0.

Definition set_frames (s : scraper) (dfs : list (Z * list row)) : scraper :=
  mkScraper (start_bdns s) (current_bdns s) (consecutive_404s s) dfs
            (total_records s) (total_requests s).

Definition set_consecutive (s : scraper) (c : Z) : scraper :=
  mkScraper (start_bdns s) (current_bdns s) c (dataframes_by_year s)
            (total_records s) (total_requests s).

Definition count_request (s : scraper) : scraper :=
  mkScraper (start_bdns s) (current_bdns s) (consecutive_404s s)
            (dataframes_by_year s) (total_records s) (total_requests s + 1).

Definition count_records (s : scraper) (n : Z) : scraper :=
  mkScraper (start_bdns s) (current_bdns s) (consecutive_404s s)
            (dataframes_by_year s) (total_records s + n) (total_requests s).

Definition advance (s : scraper) : scraper :=
  mkScraper (start_bdns s) (current_bdns s + 1) (consecutive_404s s)
            (dataframes_by_year s) (total_records s) (total_requests s).

(** The buffered rows of a year; an absent key and an empty frame both give
    the empty list. *)
Definition frame (s : scraper) (year : Z) : list row :=
  default [] (dict_get (dataframes_by_year s) year).

(** The value of [row.get('year')] when it is truthy. [transform_data] only
    stores [None] or the [int] that [datetime] returns under this key. *)
Definition row_year (r : row) : option Z :=
  match get r "year" with
  | JInt y => if (y =? 0)%Z then None else Some y
  | _ => None
  end.

(** The first loop of [add_rows]: [rows_by_year]. *)
Definition group_by_year (rows : list row) : list (Z * list row) :=
  foldl (λ acc r,
           match row_year r with
           | Some y => dict_set acc y (default [] (dict_get acc y) ++ [r])
           | None => acc
           end) [] rows.

(** One iteration of the second loop of [add_rows]. *)
Definition add_year_rows (s : scraper) (g : Z * list row) : scraper :=
  let '(year, year_rows) := g in
  let frames := dataframes_by_year s in
  let frames :=
    match dict_get frames year with
    | None => dict_set frames year []
    | Some _ => frames
    end in
  let frames := dict_set frames year (default [] (dict_get frames year) ++ year_rows) in
  count_records (set_frames s frames) (Z.of_nat (length year_rows)).

Definition add_rows (rows : list row) (s : scraper) : scraper :=
  match rows with
  | [] => s
  | _ => foldl add_year_rows s (group_by_year rows)
  end.

(** ** The store *)

(** What [save_to_parquet] prints. *)
Inductive log_line : Type :=
| Saved (year : Z) (n : nat)
| SaveError (year : Z).

(** The world outside the process: the dataset file of each year under
    [data/]; the fate of the coming storage attempts, one entry per execution
    of the [try] block of [save_to_parquet] ([false]: some call in the block
    raises an [Exception] and the file stays as it was; an exhausted list
    means success); the lines printed by [save_to_parquet]. *)
Record world : Type := mkWorld {
  files : gmap Z (list row);
  storage : list bool;
  printed : list log_line
}.

Definition next_attempt (w : world) : bool := default true (head (storage w)).

Definition save_to_parquet (year : Z) (s : scraper) (w : world)
  : scraper * world :=
  match dict_get (dataframes_by_year s) year with
  | None | Some [] => (s, w)
  | Some df =>
      if next_attempt w then
        let combined_df :=
          match files w !! year with
          | Some existing_df => drop_duplicates_last (existing_df ++ df)
          | None => df
          end in
        (set_frames s (dict_set (dataframes_by_year s) year []),
         mkWorld (<[year := combined_df]> (files w)) (tail (storage w))
                 (printed w ++ [Saved year (length df)]))
      else
        (s, mkWorld (files w) (tail (storage w)) (printed w ++ [SaveError year]))
  end.

(** [for year in self.dataframes_by_year.keys():
       if not self.dataframes_by_year[year].empty: self.save_to_parquet(year)] *)
Definition save_step (sw : scraper * world) (year : Z) : scraper * world :=
  match frame sw.1 year with
  | [] => sw
  | _ => save_to_parquet year sw.1 sw.2
  end.

Definition save_all (s : scraper) (w : world) : scraper * world :=
  foldl save_step (s, w) (dict_keys (dataframes_by_year s)).

(** ** The fetcher *)

Definition MAX_CONSECUTIVE_404 : Z := 10.

(** What [requests.get] does on one call: it returns a response with a status
    code and a body ([None]: the body is not JSON, so that [response.json()]
    raises the library's [JSONDecodeError], a [RequestException]), raises a
    [RequestException], or is interrupted from the keyboard. *)
Inductive response : Type :=
| HttpResponse (status : Z) (body : option json)
| RequestException
| KeyboardInterrupt.

(** [fetch_convocatoria]: [None] is returned as [JNull]; the only exception
    that leaves it is the interrupt. *)
Definition fetch_convocatoria (r : response) (s : scraper)
  : option json * scraper :=
  match r with
  | HttpResponse status body =>
      let s := count_request s in
      if (status =? 404)%Z then
        (Some JNull, set_consecutive s (consecutive_404s s + 1))
      else if (status =? 200)%Z then
        let s := set_consecutive s 0 in
        match body with
        | Some data => (Some data, s)
        | None => (Some JNull, s)
        end
      else (Some JNull, s)
  | RequestException => (Some JNull, s)
  | KeyboardInterrupt => (None, s)
  end.

(** ** The driver *)

(** Why the [while] loop of [run] was left; [StillRunning] when the responses
    ran out with the loop condition still true. *)
Inductive stopped : Type :=
| MaxConsecutiveFailures
| UserCancelled
| Uncaught (e : exn)
| StillRunning.

(** The [if] that follows [add_rows] in the loop. *)
Definition periodic_due (s : scraper) : bool :=
  bool_decide (0 < total_records s)%Z
  && bool_decide (total_records s `mod` 100 = 0)%Z.

Fixpoint run_loop (script : list response) (s : scraper) (w : world)
  : stopped * scraper * world :=
  if bool_decide (consecutive_404s s < MAX_CONSECUTIVE_404)%Z then
    match script with
    | [] => (StillRunning, s, w)
    | r :: script =>
        match fetch_convocatoria r s with
        | (None, s) => (UserCancelled, s, w)
        | (Some data, s) =>
            if truthy data then
              match transform_data data with
              | Raise e => (Uncaught e, s, w)
              | Ok rows =>
                  let s := add_rows rows s in
                  let '(s, w) :=
                    if periodic_due s then save_all s w else (s, w) in
                  run_loop script (advance s) w
              end
            else run_loop script (advance s) w
        end
    end
  else (MaxConsecutiveFailures, s, w).

(** [run]: the loop, then the [finally] block once the loop is left. *)
Definition run (script : list response) (s : scraper) (w : world)
  : stopped * scraper * world :=
  match run_loop script s w with
  | (StillRunning, s, w) => (StillRunning, s, w)
  | (reason, s, w) => let '(s, w) := save_all s w in (reason, s, w)
  end.

(** ** Resuming *)

(** Python's [int(s)] on a string, [None] where it raises [ValueError]. *)
Variable int_of_str : string → option Z.

Definition int64 (z : Z) : result Z :=
  if bool_decide (- 2 ^ 63 ≤ z < 2 ^ 63)%Z then Ok z else Raise OverflowError.

(** One element of [df['codigoBDNS'].astype(int)]. *)
Definition as_int (v : json) : result Z :=
  match v with
  | JInt z => int64 z
  | JBool b => Ok (if b then 1 else 0)%Z
  | JStr s =>
      match int_of_str s with
      | Some z => int64 z
      | None => Raise ValueError
      end
  | _ => Raise TypeError
  end.

(** [max(l)] *)
Definition py_max (l : list Z) : result Z :=
  match l with
  | [] => Raise ValueError
  | z :: t => Ok (foldl Z.max z t)
  end.

(** [find_last_bdns], on the datasets that the glob finds. *)
Definition find_last_bdns (parquet_files : list (list row)) : result Z :=
  match parquet_files with
  | [] => Ok 600000%Z
  | _ =>
      columns ← mapM (λ df, mapM (λ r, as_int (codigo r)) df) parquet_files;
      max_bdns ← py_max (concat columns);
      Ok (max_bdns + 1)%Z
  end.

End Scraper.

(** ** Library functions on ASCII input

    The development is parametric in [strptime] and [int]; the two functions
    below compute them on ASCII strings, so that the model runs on examples. *)

Definition digit (a : ascii) : option Z :=
  let n := Z.of_nat (nat_of_ascii a) in
  if bool_decide (48 ≤ n ≤ 57)%Z then Some (n - 48)%Z else None.

Definition digit_in (lo hi : Z) (a : ascii) : option Z :=
  match digit a with
  | Some n => if bool_decide (lo ≤ n ≤ hi)%Z then Some n else None
  | None => None
  end.

(** [%Y]: four digits. *)
Definition parse_Y (l : list ascii) : option (Z * list ascii) :=
  match l with
  | a :: b :: c :: d :: rest =>
      a ← digit a; b ← digit b; c ← digit c; d ← digit d;
      Some (1000 * a + 100 * b + 10 * c + d, rest)%Z
  | _ => None
  end.

(** [%m]: [1[0-2]|0[1-9]|[1-9]], first alternative that matches. *)
Definition parse_m (l : list ascii) : option (Z * list ascii) :=
  match l with
  | a :: rest =>
      let two :=
        match rest with
        | b :: rest' =>
            match digit_in 1 1 a, digit_in 0 2 b with
            | Some _, Some n => Some (10 + n, rest')%Z
            | _, _ =>
                match digit_in 0 0 a, digit_in 1 9 b with
                | Some _, Some n => Some (n, rest')
                | _, _ => None
                end
            end
        | [] => None
        end in
      match two with
      | Some r => Some r
      | None => n ← digit_in 1 9 a; Some (n, rest)
      end
  | [] => None
  end.

(** [%d]: [3[0-1]|[1-2]\d|0[1-9]|[1-9]| [1-9]], first alternative that
    matches. *)
Definition parse_d (l : list ascii) : option (Z * list ascii) :=
  match l with
  | a :: rest =>
      let two :=
        match rest with
        | b :: rest' =>
            match digit_in 3 3 a, digit_in 0 1 b with
            | Some _, Some n => Some (30 + n, rest')%Z
            | _, _ =>
                match digit_in 1 2 a, digit b with
                | Some m, Some n => Some (10 * m + n, rest')%Z
                | _, _ =>
                    match digit_in 0 0 a, digit_in 1 9 b with
                    | Some _, Some n => Some (n, rest')
                    | _, _ => None
                    end
                end
            end
        | [] => None
        end in
      match two with
      | Some r => Some r
      | None =>
          match digit_in 1 9 a with
          | Some n => Some (n, rest)
          | None =>
              match rest with
              | b :: rest' =>
                  if bool_decide (a = " "%char) then
                    n ← digit_in 1 9 b; Some (n, rest')
                  else None
              | [] => None
              end
          end
      end
  | [] => None
  end.

Definition dash (l : list ascii) : option (list ascii) :=
  match l with
  | a :: rest => if bool_decide (a = "-"%char) then Some rest else None
  | [] => None
  end.

Definition is_leap (y : Z) : bool :=
  bool_decide (y `mod` 4 = 0)%Z
  && (negb (bool_decide (y `mod` 100 = 0)%Z) || bool_decide (y `mod` 400 = 0)%Z).

Definition days_in_month (y m : Z) : Z :=
  if bool_decide (m = 2)%Z then (if is_leap y then 29 else 28)%Z
  else if bool_decide (m ∈ [4; 6; 9; 11]%Z) then 30%Z
  else 31%Z.

(** [datetime.strptime(s, '%Y-%m-%d').year] on an ASCII string. *)
Definition strptime_Ymd_year (s : string) : option Z :=
  '(y, l) ← parse_Y (String.list_ascii_of_string s);
  l ← dash l;
  '(m, l) ← parse_m l;
  l ← dash l;
  '(d, l) ← parse_d l;
  if bool_decide (l = []) && bool_decide (1 ≤ y)%Z
     && bool_decide (d ≤ days_in_month y m)%Z
  then Some y else None.

(** [int(s)] on a string of ASCII digits. *)
Definition int_of_digits (s : string) : option Z :=
  match String.list_ascii_of_string s with
  | [] => None
  | l => foldl (λ acc a, n ← acc; d ← digit a; Some (10 * n + d)%Z) (Some 0%Z) l
  end.

(** ** The store contract, in terms of the code

    [flush(year, rows)] of the store is [save_to_parquet(year)] run while the
    frame of [year] holds [rows]. *)

Definition buffer_rows (year : Z) (rows : list row) (s : scraper) : scraper :=
  set_frames s (dict_set (dataframes_by_year s) year rows).

Definition flush (year : Z) (rows : list row) (sw : scraper * world)
  : scraper * world :=
  save_to_parquet year (buffer_rows year rows sw.1) sw.2.

(** The dataset that a successful [save_to_parquet] writes. *)
Definition merge_persist (existing : option (list row)) (df : list row)
  : list row :=
  match existing with
  | Some existing_df => drop_duplicates_last (existing_df ++ df)
  | None => df
  end.

(** No storage attempt to come fails. *)
Definition healthy (w : world) : Prop := Forall (λ ok, ok = true) (storage w).

(** The rows of [df] that carry identifier [x]. *)
Definition with_code (x : json) (df : list row) : list row :=
  filter (λ r, codigo r = x) df.

(** ** Sample data *)

(** A record shaped like the upstream answers, with one instrument per given
    description. *)
Definition convocatoria_fields (code : Z) (fecha : string)
    (instrumentos : list string) : py_dict :=
  [ ("codigoBDNS", JInt code);
    ("fechaRecepcion", JStr fecha);
    ("instrumentos",
     JArr ((λ d, JObj [("descripcion", JStr d)]) <$> instrumentos));
    ("sectores", JArr []);
    ("regiones", JArr [JObj [("descripcion", JStr "Madrid")]]);
    ("tiposBeneficiarios", JArr [JObj [("descripcion", JStr "PYME")]]) ].

Definition convocatoria (code : Z) (fecha : string) (instrumentos : list string)
  : json :=
  JObj (convocatoria_fields code fecha instrumentos).

Definition two_instruments : py_dict :=
  convocatoria_fields 865179 "2024-03-15" ["Subvencion"; "Prestamo"].

Definition three_instruments : py_dict :=
  convocatoria_fields 865179 "2024-03-15" ["Subvencion"; "Prestamo"; "Garantia"].

(** Answers of the server. *)
Definition found (d : py_dict) : response := HttpResponse 200 (Some (JObj d)).
Definition not_found : response := HttpResponse 404 None.
Definition server_error : response := HttpResponse 500 None.

(** One hundred records of one row each, then ten 404 answers. *)
Definition hundred_then_end : list response :=
  ((λ i, found (convocatoria_fields (Z.of_nat i) "2024-03-15" ["Subvencion"]))
     <$> seq 1 100)
  ++ replicate 10 not_found.

(** A short row: identifier, one value, year. *)
Definition mini_row (code : Z) (value : string) : row :=
  [ ("codigoBDNS", JInt code); ("descripcion", JStr value);
    ("year", JInt 2024) ].

(** A fresh scraper next to an empty [data/] directory. *)
Definition fresh : scraper * world := (init 747573, mkWorld ∅ [] []).

(** A directory that holds one dataset. *)
Definition with_dataset (year : Z) (df : list row) : world :=
  mkWorld {[ year := df ]} [] [].

(** ** Shape of a record *)

Definition is_obj (j : json) : Prop :=
  match j with JObj _ => True | _ => False end.

(** Length of a multi-valued dimension; 0 when it is absent or not a list. *)
Definition dim_len (d : py_dict) (k : string) : nat :=
  match dict_get d k with
  | Some (JArr l) => length l
  | _ => 0
  end.

(** A dimension is absent, falsy (null, an empty list), or a list of
    objects. *)
Definition well_formed_dim (d : py_dict) (k : string) : Prop :=
  match dict_get d k with
  | None => True
  | Some (JArr l) => Forall is_obj l
  | Some v => truthy v = false
  end.

(** The keys that the loop over the product adds to a copy of [base_data],
    and all the keys that [transform_data] adds to the copied scalar fields. *)
Definition dimension_keys : list string :=
  [ "instrumento_descripcion"; "tipoBeneficiario_descripcion";
    "sector_descripcion"; "sector_codigo"; "region_descripcion" ].

Definition added_keys : list string :=
  [ "organo_nivel1"; "organo_nivel2"; "organo_nivel3"; "year" ]
  ++ dimension_keys.

(** ** The stop rule of the driver *)

(** The counter after one more response, as [fetch_convocatoria] leaves it:
    only a 404 counts, only a 200 resets. *)
Definition count_404 (c : Z) (r : response) : Z :=
  match r with
  | HttpResponse status _ =>
      if (status =? 404)%Z then (c + 1)%Z
      else if (status =? 200)%Z then 0%Z
      else c
  | _ => c
  end.

(** How many responses the loop of [run] consumes until the counter stops
    it; [None] when the responses run out first. *)
Fixpoint probes_until_stop (c : Z) (script : list response) : option nat :=
  if bool_decide (c < MAX_CONSECUTIVE_404)%Z then
    match script with
    | [] => None
    | r :: script => S <$> probes_until_stop (count_404 c r) script
    end
  else Some 0.

(** A response that neither interrupts the run nor carries a record on which
    [transform_data] raises. *)
Definition uneventful (strptime_year : string → option Z) (r : response)
  : bool :=
  match r with
  | KeyboardInterrupt => false
  | HttpResponse status (Some data) =>
      if (status =? 200)%Z then
        negb (truthy data)
        || match transform_data strptime_year data with
           | Ok _ => true
           | Raise _ => false
           end
      else true
  | _ => true
  end.

(** The outcome classes of the fetcher contract. *)
Inductive outcome : Type := Found | NotFound | TransientError.

Definition classify (r : response) : option outcome :=
  match r with
  | HttpResponse status body =>
      if (status =? 404)%Z then Some NotFound
      else if (status =? 200)%Z then
        match body with Some _ => Some Found | None => Some TransientError end
      else Some TransientError
  | RequestException => Some TransientError
  | KeyboardInterrupt => None
  end.

(** The consecutive-failure counter as the termination property words it:
    [NotFound] and [TransientError] both add one, [Found] resets. *)
Definition consecutive_non_found (c : Z) (r : response) : Z :=
  match classify r with
  | Some Found => 0%Z
  | Some _ => (c + 1)%Z
  | None => c
  end.

(** What the buffer and the store leave alone. *)
Definition same_cursor (s s' : scraper) : Prop :=
  current_bdns s' = current_bdns s
  ∧ consecutive_404s s' = consecutive_404s s.

(** The dict of frames has each year once, and no storage attempt to come
    fails. *)
Definition tidy (s : scraper) (w : world) : Prop :=
  NoDup (dict_keys (dataframes_by_year s)) ∧ healthy w.

(** The lines that one pass over [years] prints when every attempt succeeds:
    one per year with a non-empty frame. *)
Definition saved_lines (s : scraper) (years : list Z) : list log_line :=
  (λ y, Saved y (length (frame s y))) <$> filter (λ y, frame s y ≠ []) years.

(** ** Notions used to state further properties *)

(** The columns of a flattened row, in the order [transform_data] fills
    them. *)
Definition row_columns : list string := base_keys ++ added_keys.

(** The elements that the loop over the product sees for a dimension. *)
Definition dim_items (d : py_dict) (k : string) : list json :=
  match dimension d k with
  | JArr l => l
  | _ => []
  end.

(** [x.get(k)] for an element of a dimension that is a dict. *)
Definition field_of (k : string) (x : json) : json :=
  match x with
  | JObj m => get m k
  | _ => JNull
  end.

(** The five columns that come from the dimensions. *)
Definition dimension_columns (r : row) : json * json * json * json * json :=
  (get r "instrumento_descripcion", get r "tipoBeneficiario_descripcion",
   get r "sector_descripcion", get r "sector_codigo",
   get r "region_descripcion").

(** The rows of a batch that [add_rows] files under a year. *)
Definition by_year (y : Z) (rows : list row) : list row :=
  filter (λ r, row_year r = Some y) rows.

(** The rows of a batch that carry a usable year. *)
Definition dated (rows : list row) : list row :=
  filter (λ r, is_Some (row_year r)) rows.

(** [base_data] as [transform_data] has it when the loop starts. *)
Definition base_data_of (strptime_year : string → option Z) (d o : py_dict)
  : py_dict :=
  dict_set (dict_set (dict_set (dict_set ((λ k, (k, get d k)) <$> base_keys)
    "organo_nivel1" (get o "nivel1"))
    "organo_nivel2" (get o "nivel2"))
    "organo_nivel3" (get o "nivel3"))
    "year" (year_of strptime_year (get d "fechaRecepcion")).

(** One step of the first loop of [add_rows]. *)
Definition group_step (acc : list (Z * list row)) (r : row)
  : list (Z * list row) :=
  match row_year r with
  | Some y => dict_set acc y (default [] (dict_get acc y) ++ [r])
  | None => acc
  end.

(** Number of rows held by a dict of groups. *)
Definition grouped_rows (groups : list (Z * list row)) : nat :=
  sum_list ((λ g, length g.2) <$> groups).

(** ** More sample data *)

(** The rows of the record with two instruments. *)
Definition two_rows : list row :=
  match transform_data strptime_Ymd_year (JObj two_instruments) with
  | Ok rows => rows
  | Raise _ => []
  end.

(** The same record without a reception date, and with a null [organo]. *)
Definition undated_record : py_dict :=
  [ ("codigoBDNS", JInt 865180);
    ("instrumentos", JArr [JObj [("descripcion", JStr "Subvencion")]]) ].

Definition undated_rows : list row :=
  match transform_data strptime_Ymd_year (JObj undated_record) with
  | Ok rows => rows
  | Raise _ => []
  end.

Definition null_organo_record : py_dict :=
  ("organo", JNull) :: two_instruments.

(** A scraper that has buffered 98 rows of 2023 so far. *)
Definition nearly_hundred : scraper :=
  mkScraper 1 50 0 [(2023%Z, replicate 98 (mini_row 3 "x"))] 98 49.

(** Rows whose identifiers are digit strings. *)
Definition string_row (code : string) : row :=
  [ ("codigoBDNS", JStr code); ("year", JInt 2024) ].

(** * Properties *)

(** ** Keep-last deduplication *)

Section Dedup.
Implicit Types (df : list row) (x : json).

Lemma with_code_nil x df : x ∉ codigo <$> df → with_code x df = [].
Proof.
  induction df as [|r t IH]; [done|].
  rewrite fmap_cons not_elem_of_cons. intros [Hx Ht].
  rewrite /with_code filter_cons_False; [naive_solver|]. by apply IH.
Qed.

Lemma with_code_elem x df : x ∈ codigo <$> df → with_code x df ≠ [].
Proof.
  intros (r & -> & Hr)%list_elem_of_fmap Hnil.
  assert (r ∈ with_code (codigo r) df) as Hin by by apply list_elem_of_filter.
  rewrite Hnil in Hin. by apply not_elem_of_nil in Hin.
Qed.

Lemma dedup_codes x df :
  x ∈ codigo <$> drop_duplicates_last df ↔ x ∈ codigo <$> df.
Proof.
  induction df as [|r t IH]; [done|]. cbn [drop_duplicates_last].
  case_bool_decide as Hdup.
  - rewrite IH fmap_cons elem_of_cons.
    split; [by right|by intros [->|?]].
  - by rewrite !fmap_cons !elem_of_cons IH.
Qed.

Lemma dedup_NoDup df : NoDup (codigo <$> drop_duplicates_last df).
Proof.
  induction df as [|r t IH]; [constructor|]. cbn [drop_duplicates_last].
  case_bool_decide as Hdup; [done|].
  rewrite fmap_cons. constructor; [by rewrite dedup_codes|done].
Qed.

Lemma dedup_id df : NoDup (codigo <$> df) → drop_duplicates_last df = df.
Proof.
  induction df as [|r t IH]; [done|].
  rewrite fmap_cons NoDup_cons. intros [Hr Ht]. cbn [drop_duplicates_last].
  rewrite bool_decide_eq_false_2; [done|]. by rewrite IH.
Qed.

Lemma dedup_idem df :
  drop_duplicates_last (drop_duplicates_last df) = drop_duplicates_last df.
Proof. apply dedup_id, dedup_NoDup. Qed.

(** The one row that survives for an identifier is its last occurrence. *)
Lemma dedup_with_code x df :
  with_code x (drop_duplicates_last df) = option_list (last (with_code x df)).
Proof.
  induction df as [|r t IH]; [done|]. cbn [drop_duplicates_last].
  destruct (decide (codigo r = x)) as [Hx|Hx].
  - rewrite {2}/with_code filter_cons_True; [done|].
    fold (with_code x t). case_bool_decide as Hdup.
    + rewrite IH. rewrite Hx in Hdup.
      apply with_code_elem in Hdup.
      by destruct (with_code x t) as [|r' t'] eqn:Ht.
    + rewrite /with_code filter_cons_True; [done|].
      fold (with_code x (drop_duplicates_last t)) (with_code x t).
      rewrite Hx in Hdup.
      assert (x ∉ codigo <$> drop_duplicates_last t) as Hdup'
        by by rewrite dedup_codes.
      by rewrite !with_code_nil.
  - rewrite {2}/with_code filter_cons_False; [done|].
    fold (with_code x t). case_bool_decide as Hdup; [done|].
    rewrite /with_code filter_cons_False; [done|]. apply IH.
Qed.

(** Deduplicating a concatenation: the earlier part loses every row whose
    identifier comes again later. *)
Lemma dedup_app df1 df2 :
  drop_duplicates_last (df1 ++ df2) =
  filter (λ r, codigo r ∉ codigo <$> df2) (drop_duplicates_last df1)
    ++ drop_duplicates_last df2.
Proof.
  induction df1 as [|r t IH]; [done|].
  rewrite -app_comm_cons. cbn [drop_duplicates_last].
  rewrite fmap_app. case_bool_decide as Hdup.
  - case_bool_decide as Hdup1; [done|].
    rewrite elem_of_app in Hdup. destruct Hdup as [?|Hdup]; [done|].
    rewrite filter_cons_False; [naive_solver|done].
  - rewrite not_elem_of_app in Hdup. destruct Hdup as [Hd1 Hd2].
    rewrite bool_decide_eq_false_2; [done|].
    rewrite filter_cons_True; [done|]. by rewrite -app_comm_cons IH.
Qed.

Lemma filter_none {A} (P : A → Prop) `{∀ a, Decision (P a)} (l : list A) :
  (∀ a, a ∈ l → ¬ P a) → filter P l = [].
Proof.
  induction l as [|a t IH]; [done|]. intros Hl.
  rewrite filter_cons_False; [apply Hl, elem_of_cons; by left|].
  apply IH. intros b Hb. apply Hl, elem_of_cons. by right.
Qed.

Lemma dedup_absorb df :
  filter (λ r, codigo r ∉ codigo <$> df) (drop_duplicates_last df) = [].
Proof.
  apply filter_none. intros r Hr Hnot. apply Hnot, dedup_codes.
  apply list_elem_of_fmap. by exists r.
Qed.

(** Merging the same rows a second time changes nothing. *)
Lemma dedup_merge_again df1 df2 :
  drop_duplicates_last (drop_duplicates_last (df1 ++ df2) ++ df2)
  = drop_duplicates_last (df1 ++ df2).
Proof.
  rewrite (dedup_app (drop_duplicates_last _)) dedup_idem.
  rewrite (dedup_app df1) filter_app dedup_absorb app_nil_r.
  by rewrite list_filter_filter_l.
Qed.

Lemma dedup_double df :
  drop_duplicates_last (df ++ df) = drop_duplicates_last df.
Proof. by rewrite dedup_app dedup_absorb. Qed.

(** Which rows stay depends on the identifier column alone. *)
Lemma dedup_fmap (f : row → row) df :
  (∀ r, codigo (f r) = codigo r) →
  drop_duplicates_last (f <$> df) = f <$> drop_duplicates_last df.
Proof.
  intros Hf. induction df as [|r t IH]; [done|].
  rewrite fmap_cons. cbn [drop_duplicates_last].
  rewrite -list_fmap_compose Hf.
  rewrite (list_fmap_ext (codigo ∘ f) codigo t); [by intros; apply Hf|].
  case_bool_decide; [done|]. by rewrite fmap_cons IH.
Qed.

(** Of the rows handed to the store, the last one of each identifier is
    in the dataset; every row is when the year had no dataset. *)
Lemma merge_persist_keeps existing df (r : row) :
  r ∈ df →
  ∃ kept, last (with_code (codigo r) df) = Some kept
          ∧ kept ∈ merge_persist existing df
          ∧ (existing = None → r ∈ merge_persist existing df).
Proof.
  intros Hr.
  assert (r ∈ with_code (codigo r) df) as Hin by by apply list_elem_of_filter.
  destruct (last (with_code (codigo r) df)) as [kept|] eqn:Hlast.
  2: { apply last_None in Hlast. rewrite Hlast in Hin.
       by apply not_elem_of_nil in Hin. }
  exists kept. split_and!; [done| |by intros ->].
  destruct existing as [ex|]; cbn [merge_persist].
  - assert (kept ∈ with_code (codigo r) (drop_duplicates_last (ex ++ df)))
      as Hk; [|by apply list_elem_of_filter in Hk as [_ ?]].
    rewrite dedup_with_code /with_code filter_app last_app.
    fold (with_code (codigo r) df). rewrite Hlast.
    apply list_elem_of_singleton. done.
  - apply last_Some_elem_of in Hlast.
    by apply list_elem_of_filter in Hlast as [_ ?].
Qed.

End Dedup.

(** ** Dicts *)

Section DictFacts.
Context {K V : Type} `{EqDecision K}.
Implicit Types (d : list (K * V)) (k : K) (v : V).

Lemma dict_get_set_eq d k v : dict_get (dict_set d k v) k = Some v.
Proof.
  induction d as [|[k' v'] t IH]; cbn [dict_set dict_get].
  - by rewrite decide_True.
  - destruct (decide (k = k')) as [->|Hk]; cbn [dict_get].
    + by rewrite decide_True.
    + by rewrite decide_False.
Qed.

Lemma dict_get_set_ne d k k' v :
  k ≠ k' → dict_get (dict_set d k v) k' = dict_get d k'.
Proof.
  intros Hne. induction d as [|[k0 v0] t IH]; cbn [dict_set dict_get].
  - by rewrite decide_False.
  - destruct (decide (k = k0)) as [->|Hk]; cbn [dict_get].
    + by rewrite !decide_False.
    + by rewrite IH.
Qed.

Lemma dict_get_None d k : dict_get d k = None ↔ k ∉ dict_keys d.
Proof.
  induction d as [|[k0 v0] t IH]; cbn [dict_get dict_keys fmap list_fmap fst].
  - split; [intros _; apply not_elem_of_nil|done].
  - rewrite not_elem_of_cons. destruct (decide (k = k0)) as [->|Hk].
    + split; [done|by intros [? _]].
    + rewrite IH. unfold dict_keys. split; [by split|by intros [_ ?]].
Qed.

Lemma dict_keys_set d k v :
  dict_keys (dict_set d k v) =
  if decide (k ∈ dict_keys d) then dict_keys d else dict_keys d ++ [k].
Proof.
  induction d as [|[k0 v0] t IH]; cbn [dict_set].
  - destruct (decide (k ∈ dict_keys [])) as [Hin|Hin]; [|done].
    by apply not_elem_of_nil in Hin.
  - unfold dict_keys in *. destruct (decide (k = k0)) as [->|Hk].
    + clear IH. rewrite !fmap_cons. cbn [fst].
      destruct (decide (k0 ∈ k0 :: t.*1)) as [Hin|Hin]; [done|].
      exfalso. apply Hin, elem_of_cons. by left.
    + rewrite !fmap_cons IH. cbn [fst]. clear IH.
      destruct (decide (k ∈ t.*1)) as [Hin|Hin];
        destruct (decide (k ∈ k0 :: t.*1)) as [Hin'|Hin']; try done.
      * exfalso. apply Hin', elem_of_cons. by right.
      * apply elem_of_cons in Hin' as [?|?]; done.
Qed.

Lemma dict_keys_set_NoDup d k v :
  NoDup (dict_keys d) → NoDup (dict_keys (dict_set d k v)).
Proof.
  intros Hd. rewrite dict_keys_set. case_decide as Hin; [done|].
  apply NoDup_app. split_and!; [done| |apply NoDup_singleton].
  intros k' Hk' ->%list_elem_of_singleton. done.
Qed.
End DictFacts.

(** ** One call of [save_to_parquet] *)

Section Store.
Implicit Types (s : scraper) (w : world) (year : Z) (rows : list row).

Lemma frame_set s year rows y :
  frame (set_frames s (dict_set (dataframes_by_year s) year rows)) y
  = if decide (year = y) then rows else frame s y.
Proof.
  unfold frame. cbn [dataframes_by_year set_frames]. case_decide as Hy.
  - subst. by rewrite dict_get_set_eq.
  - by rewrite dict_get_set_ne.
Qed.

Lemma save_to_parquet_empty year s w :
  frame s year = [] → save_to_parquet year s w = (s, w).
Proof.
  unfold frame, save_to_parquet.
  destruct (dict_get (dataframes_by_year s) year) as [[|??]|]; by intros.
Qed.

Lemma save_to_parquet_ok year s w :
  frame s year ≠ [] → next_attempt w = true →
  save_to_parquet year s w =
  (set_frames s (dict_set (dataframes_by_year s) year []),
   mkWorld (<[year := merge_persist (files w !! year) (frame s year)]> (files w))
           (tail (storage w))
           (printed w ++ [Saved year (length (frame s year))])).
Proof.
  unfold frame, save_to_parquet. intros Hne ->.
  by destruct (dict_get (dataframes_by_year s) year) as [[|??]|].
Qed.

Lemma save_to_parquet_fail year s w :
  frame s year ≠ [] → next_attempt w = false →
  save_to_parquet year s w =
  (s, mkWorld (files w) (tail (storage w)) (printed w ++ [SaveError year])).
Proof.
  unfold frame, save_to_parquet. intros Hne ->.
  by destruct (dict_get (dataframes_by_year s) year) as [[|??]|].
Qed.

Lemma healthy_next w : healthy w → next_attempt w = true.
Proof.
  unfold healthy, next_attempt. destruct (storage w) as [|b t]; [done|].
  by intros [-> _]%Forall_cons.
Qed.

Lemma healthy_tail w fs out :
  healthy w → healthy (mkWorld fs (tail (storage w)) out).
Proof.
  unfold healthy. cbn [storage]. destruct (storage w) as [|b t]; [done|].
  by intros [_ ?]%Forall_cons.
Qed.

(** A successful flush of a non-empty batch. *)
Lemma flush_ok year rows s w :
  rows ≠ [] → next_attempt w = true →
  (flush year rows (s, w)).2 =
  mkWorld (<[year := merge_persist (files w !! year) rows]> (files w))
          (tail (storage w)) (printed w ++ [Saved year (length rows)]).
Proof.
  intros Hrows Hok. unfold flush, buffer_rows. cbn [fst snd].
  rewrite save_to_parquet_ok; [by rewrite frame_set decide_True|done|].
  cbn [snd]. by rewrite frame_set decide_True.
Qed.

Lemma flush_nil year s w : (flush year [] (s, w)).2 = w.
Proof.
  unfold flush, buffer_rows. cbn [fst snd].
  rewrite save_to_parquet_empty; [by rewrite frame_set decide_True|done].
Qed.

Lemma flush_ok_lookup year rows s w :
  rows ≠ [] → next_attempt w = true →
  files (flush year rows (s, w)).2 !! year
  = Some (merge_persist (files w !! year) rows).
Proof. intros. by rewrite flush_ok // lookup_insert_eq. Qed.

(** C4, as amended. Flushing the same rows twice leaves the datasets that
    one flush leaves, when the year already had a dataset before the first
    flush or the identifiers of the rows are pairwise distinct. *)
Theorem flush_twice_idempotent year rows s w :
  healthy w →
  is_Some (files w !! year) ∨ NoDup (codigo <$> rows) →
  files (flush year rows (flush year rows (s, w))).2
  = files (flush year rows (s, w)).2.
Proof.
  intros Hw Hcase. destruct (decide (rows = [])) as [->|Hne].
  { destruct (flush year [] (s, w)) as [s1 w1] eqn:H1.
    by rewrite flush_nil. }
  destruct (flush year rows (s, w)) as [s1 w1] eqn:H1.
  assert (w1 = (flush year rows (s, w)).2) as Hw1 by by rewrite H1.
  rewrite flush_ok in Hw1; [done|by apply healthy_next|].
  rewrite flush_ok; [done| |].
  { rewrite Hw1. by apply healthy_next, healthy_tail. }
  rewrite Hw1. cbn [files snd]. rewrite lookup_insert_eq insert_insert_eq.
  cbn [merge_persist].
  destruct (files w !! year) as [existing|] eqn:Hfile; cbn [merge_persist].
  - by rewrite dedup_merge_again.
  - destruct Hcase as [[? [=]]|Hnodup].
    by rewrite dedup_double dedup_id.
Qed.

(** C5. When the year has a dataset, after a flush the only stored row
    with identifier [x] is the last row of the new batch that carries [x],
    whatever the dataset held for [x] before. *)
Theorem merge_precedence year existing before r2 after x s w :
  files w !! year = Some existing →
  next_attempt w = true →
  codigo r2 = x →
  x ∉ codigo <$> after →
  ∃ stored,
    files (flush year (before ++ r2 :: after) (s, w)).2 !! year = Some stored
    ∧ with_code x stored = [r2].
Proof.
  intros Hfile Hok Hx Hafter. eexists. split.
  - rewrite flush_ok_lookup; [by destruct before|done|].
    by rewrite Hfile.
  - cbn [merge_persist]. rewrite dedup_with_code /with_code !filter_app.
    rewrite filter_cons_True; [done|].
    fold (with_code x after). rewrite with_code_nil; [done|].
    by rewrite app_assoc last_snoc.
Qed.

(** C8. A merge into an existing dataset leaves a dataset whose identifier
    column has no repetition; for each identifier the stored row is its last
    occurrence in existing-then-new order; and the choice looks at the
    identifier column only: it commutes with any change of the other
    fields. *)
Theorem merge_unique year existing rows s w :
  files w !! year = Some existing →
  next_attempt w = true →
  rows ≠ [] →
  ∃ stored,
    files (flush year rows (s, w)).2 !! year = Some stored
    ∧ NoDup (codigo <$> stored)
    ∧ (∀ x, with_code x stored
            = option_list (last (with_code x (existing ++ rows))))
    ∧ (∀ f : row → row, (∀ r, codigo (f r) = codigo r) →
         drop_duplicates_last (f <$> existing ++ rows) = f <$> stored).
Proof.
  intros Hfile Hok Hrows. eexists. split_and!.
  - rewrite flush_ok_lookup; [done..|]. by rewrite Hfile.
  - apply dedup_NoDup.
  - intros x. apply dedup_with_code.
  - intros f Hf. by apply dedup_fmap.
Qed.

(** C10. With a dataset present for the year, of the rows of the batch that
    share an identifier only the last one is stored; without one, the batch
    is stored as it is, every row of it. *)
Theorem flush_keeps_last_of_batch year rows x s w :
  next_attempt w = true →
  x ∈ codigo <$> rows →
  (∀ existing, files w !! year = Some existing →
     ∃ stored final,
       files (flush year rows (s, w)).2 !! year = Some stored
       ∧ last (with_code x rows) = Some final
       ∧ with_code x stored = [final])
  ∧ (files w !! year = None →
       files (flush year rows (s, w)).2 !! year = Some rows).
Proof.
  intros Hok Hx. assert (rows ≠ []) as Hrows.
  { intros ->. by apply not_elem_of_nil in Hx. }
  split.
  - intros existing Hfile.
    pose proof (with_code_elem _ _ Hx) as Hk.
    destruct (last (with_code x rows)) as [final|] eqn:Hlast;
      [|by apply last_None in Hlast].
    exists (drop_duplicates_last (existing ++ rows)), final. split_and!.
    + rewrite flush_ok_lookup; [done..|]. by rewrite Hfile.
    + done.
    + rewrite dedup_with_code /with_code filter_app.
      fold (with_code x rows) (with_code x existing).
      destruct (with_code x rows) as [|r t] using rev_ind; [done|].
      rewrite app_assoc !last_snoc in Hlast |- *. by simplify_eq.
  - intros Hfile. rewrite flush_ok_lookup; [done..|]. by rewrite Hfile.
Qed.

(** C6, as amended. A failing storage attempt is caught and printed; the
    scraper is unchanged, so the rows stay in the frame of the year; the
    file is as before; the loop over the years goes on with the next one;
    and the next attempt for the year, if it succeeds, stores the rows. *)
Theorem failed_save_keeps_rows year s w :
  frame s year ≠ [] →
  next_attempt w = false →
  ∃ w',
    save_to_parquet year s w = (s, w')
    ∧ files w' = files w
    ∧ printed w' = printed w ++ [SaveError year]
    ∧ storage w' = tail (storage w)
    ∧ (∀ years, foldl save_step (s, w) (year :: years)
                = foldl save_step (s, w') years)
    ∧ (next_attempt w' = true →
         files (save_to_parquet year s w').2 !! year
         = Some (merge_persist (files w !! year) (frame s year))).
Proof.
  intros Hrows Hfail. eexists. split_and!.
  - by apply save_to_parquet_fail.
  - done.
  - done.
  - done.
  - intros years. cbn [foldl]. unfold save_step at 2. cbn [fst snd].
    destruct (frame s year) eqn:Hf; [done|].
    rewrite save_to_parquet_fail; [by rewrite Hf|done..].
  - intros Hok. rewrite save_to_parquet_ok; [done..|].
    cbn [snd files]. by rewrite lookup_insert_eq.
Qed.
End Store.

(** ** The flattener *)

Section Flattener.
Variable strptime_year : string → option Z.



Lemma dict_get_table (f : string → json) (ks : list string) k :
  k ∈ ks → dict_get ((λ k, (k, f k)) <$> ks) k = Some (f k).
Proof.
  induction ks as [|k0 t IH]; [by intros ?%not_elem_of_nil|].
  intros Hk. rewrite fmap_cons. cbn [dict_get]. case_decide as Hk0.
  - by subst.
  - apply IH. by apply elem_of_cons in Hk as [?|?].
Qed.


Lemma dimension_wf d k :
  well_formed_dim d k →
  ∃ l, dimension d k = JArr l ∧ Forall is_obj l
       ∧ length l = dim_len d k `max` 1.
Proof.
  unfold well_formed_dim, dimension, get_default, dim_len.
  assert (∃ l, placeholder = JArr l ∧ Forall is_obj l ∧ length l = 0 `max` 1)
    as Hdefault by (exists [JObj []]; by split_and!; [|repeat constructor|]).
  destruct (dict_get d k) as [v|]; cbn [default]; [|done].
  destruct v as [|b|z|s|l|m]; intros Hwf.
  1-4, 6: by rewrite Hwf.
  destruct l as [|j l]; [done|]. cbn.
  exists (j :: l). split_and!; [done..|]. cbn [length]. lia.
Qed.



End Flattener.

(** ** The driver *)

Section Driver.
Variable strptime_year : string → option Z.
Implicit Types (s : scraper) (w : world) (script : list response).

Local Abbreviation loop := (run_loop strptime_year).

Lemma save_to_parquet_cursor year s w :
  same_cursor s (save_to_parquet year s w).1.
Proof. unfold save_to_parquet. by repeat case_match. Qed.

Lemma save_steps_cursor years s w :
  same_cursor s (foldl save_step (s, w) years).1.
Proof.
  revert s w. induction years as [|y t IH]; intros s w; [done|].
  cbn [foldl]. unfold save_step at 2. cbn [fst snd].
  destruct (frame s y); [apply IH|].
  destruct (save_to_parquet_cursor y s w) as [H1 H2].
  destruct (save_to_parquet y s w) as [s1 w1]. cbn [fst] in H1, H2.
  destruct (IH s1 w1) as [H3 H4]. split; congruence.
Qed.

Lemma save_all_cursor s w : same_cursor s (save_all s w).1.
Proof. apply save_steps_cursor. Qed.

Lemma add_rows_cursor rows s : same_cursor s (add_rows rows s).
Proof.
  unfold add_rows. destruct rows as [|r0 rows0]; [done|].
  generalize (group_by_year (r0 :: rows0)). intros groups. revert s.
  induction groups as [|[y g] t IH]; intros s; [done|].
  cbn [foldl]. destruct (IH (add_year_rows s (y, g))) as [H1 H2].
  split; [by rewrite H1|by rewrite H2].
Qed.

Lemma fetch_counter r s data s' :
  fetch_convocatoria r s = (data, s') →
  consecutive_404s s' = count_404 (consecutive_404s s) r
  ∧ current_bdns s' = current_bdns s.
Proof.
  unfold fetch_convocatoria, count_404. intros Hf.
  destruct r as [status body| |]; repeat case_match; by simplify_eq.
Qed.

(** Once the counter has reached the threshold no response is read. *)
Lemma run_loop_stopped script s w :
  (MAX_CONSECUTIVE_404 ≤ consecutive_404s s)%Z →
  loop script s w = (MaxConsecutiveFailures, s, w).
Proof.
  intros Hc. destruct script; cbn [run_loop];
    by rewrite bool_decide_eq_false_2; [lia|].
Qed.

(** The loop is left for this reason only with the counter at the
    threshold. *)
Lemma run_loop_reason script s w s' w' :
  loop script s w = (MaxConsecutiveFailures, s', w') →
  (MAX_CONSECUTIVE_404 ≤ consecutive_404s s')%Z.
Proof.
  revert s w. induction script as [|r t IH]; intros s w;
    cbn [run_loop]; case_bool_decide as Hc.
  - by intros [=].
  - intros [= <- <-]. lia.
  - destruct (fetch_convocatoria r s) as [[data|] s1]; [|by intros [=]].
    destruct (truthy data); [|apply IH].
    destruct (transform_data strptime_year data) as [rows|e];
      [|by intros [=]].
    destruct (periodic_due (add_rows rows s1));
      [destruct (save_all _ w)|]; apply IH.
  - intros [= <- <-]. lia.
Qed.

Lemma fetch_uneventful r s data s' :
  uneventful strptime_year r = true →
  fetch_convocatoria r s = (data, s') →
  ∃ j, data = Some j
       ∧ (truthy j = true → ∃ rows, transform_data strptime_year j = Ok rows).
Proof.
  unfold uneventful, fetch_convocatoria.
  destruct r as [status [body|]| |]; [| | |done].
  - destruct (status =? 404)%Z eqn:H404.
    { intros _ [= <- _]. by eexists. }
    destruct (status =? 200)%Z.
    + intros Hu [= <- _]. eexists. split; [done|]. intros Ht.
      rewrite Ht in Hu. cbn in Hu. case_match; [by eexists|done].
    + intros _ [= <- _]. by eexists.
  - intros _ Hf. repeat case_match; simplify_eq; by eexists.
  - intros _ [= <- _]. by eexists.
Qed.

(** One turn of the loop on an uneventful response. *)
Lemma loop_body r script s w :
  (consecutive_404s s < MAX_CONSECUTIVE_404)%Z →
  uneventful strptime_year r = true →
  ∃ s1 w1,
    loop (r :: script) s w = loop script s1 w1
    ∧ consecutive_404s s1 = count_404 (consecutive_404s s) r
    ∧ current_bdns s1 = (current_bdns s + 1)%Z.
Proof.
  intros Hc Hr. cbn [run_loop].
  rewrite bool_decide_eq_true_2; [done|].
  destruct (fetch_convocatoria r s) as [data s0] eqn:Hf.
  destruct (fetch_counter _ _ _ _ Hf) as [Hc0 Hb0].
  destruct (fetch_uneventful _ _ _ _ Hr Hf) as (j & -> & Hj).
  destruct (truthy j).
  - destruct Hj as [rows ->]; [done|].
    destruct (add_rows_cursor rows s0) as [Hb1 Hc1].
    destruct (periodic_due (add_rows rows s0)).
    + destruct (save_all_cursor (add_rows rows s0) w) as [Hb2 Hc2].
      destruct (save_all (add_rows rows s0) w) as [s2 w2].
      cbn [fst] in Hb2, Hc2. exists (advance s2), w2.
      split_and!; [done|cbn; congruence|cbn; congruence].
    + exists (advance (add_rows rows s0)), w.
      split_and!; [done|cbn; congruence|cbn; congruence].
  - exists (advance s0), w. split_and!; [done|cbn; congruence..].
Qed.

(** C1, as amended. On responses that neither interrupt nor crash the run,
    the loop consumes responses up to the first point where the counter of
    404 answers since the last 200 answer has reached the threshold, stops
    there for that reason, and reads nothing further; while the counter is
    below the threshold it does not stop. Other answers and failed requests
    leave the counter as it is. *)
Theorem stop_rule script s w :
  Forall (λ r, uneventful strptime_year r = true) script →
  ∃ s' w',
    match probes_until_stop (consecutive_404s s) script with
    | Some n =>
        loop script s w = (MaxConsecutiveFailures, s', w')
        ∧ current_bdns s' = (current_bdns s + Z.of_nat n)%Z
        ∧ consecutive_404s s'
          = foldl count_404 (consecutive_404s s) (take n script)
        ∧ (MAX_CONSECUTIVE_404 ≤ consecutive_404s s')%Z
    | None =>
        loop script s w = (StillRunning, s', w')
        ∧ current_bdns s' = (current_bdns s + Z.of_nat (length script))%Z
        ∧ consecutive_404s s'
          = foldl count_404 (consecutive_404s s) script
        ∧ (consecutive_404s s' < MAX_CONSECUTIVE_404)%Z
    end.
Proof.
  revert s w. induction script as [|r t IH]; intros s w Hq.
  - exists s, w. cbn [probes_until_stop run_loop].
    case_bool_decide; cbn; split_and!; try done; lia.
  - apply Forall_cons in Hq as [Hr Ht]. cbn [probes_until_stop].
    case_bool_decide as Hc.
    + destruct (loop_body r t s w Hc Hr) as (s1 & w1 & -> & Hc1 & Hb1).
      destruct (IH s1 w1 Ht) as (s' & w' & Hrun). exists s', w'.
      rewrite Hc1 in Hrun.
      destruct (probes_until_stop (count_404 (consecutive_404s s) r) t)
        as [n|]; cbn [fmap option_fmap option_map take foldl length];
        destruct Hrun as (-> & Hb & Hcount & Hlim);
        split_and!; try done; lia.
    + exists s, w. rewrite run_loop_stopped; [lia|].
      cbn. split_and!; try done; lia.
Qed.

(** The number that [probes_until_stop] gives is the first prefix at which
    the counter has reached the threshold. *)
Lemma probes_until_stop_first c script n :
  probes_until_stop c script = Some n →
  n ≤ length script
  ∧ (MAX_CONSECUTIVE_404 ≤ foldl count_404 c (take n script))%Z
  ∧ ∀ m, m < n →
      (foldl count_404 c (take m script) < MAX_CONSECUTIVE_404)%Z.
Proof.
  revert c n. induction script as [|r t IH]; intros c n;
    cbn [probes_until_stop]; case_bool_decide as Hc.
  - done.
  - intros [= <-]. cbn. split_and!; [lia..|]. intros m Hm. lia.
  - destruct (probes_until_stop (count_404 c r) t) as [k|] eqn:Hk; [|done].
    intros [= <-]. destruct (IH _ _ Hk) as (Hlen & Hreach & Hbefore).
    cbn [length take foldl]. split_and!; [lia|done|].
    intros [|m] Hm; cbn [take foldl]; [done|]. apply Hbefore. lia.
  - intros [= <-]. cbn. split_and!; [lia..|]. intros m Hm. lia.
Qed.

(** *** The pass over the years *)

Lemma save_to_parquet_tidy year s w :
  tidy s w → tidy (save_to_parquet year s w).1 (save_to_parquet year s w).2.
Proof.
  intros [Hk Hw]. unfold save_to_parquet.
  repeat case_match; cbn [fst snd]; split; cbn [dataframes_by_year set_frames];
    auto using dict_keys_set_NoDup, healthy_tail.
Qed.

Lemma save_steps_tidy years s w :
  tidy s w →
  tidy (foldl save_step (s, w) years).1 (foldl save_step (s, w) years).2.
Proof.
  revert s w. induction years as [|y t IH]; intros s w Hsw; [done|].
  cbn [foldl]. unfold save_step at 2 4. cbn [fst snd].
  destruct (frame s y); [by apply IH|].
  pose proof (save_to_parquet_tidy y s w Hsw) as Hsw1.
  destruct (save_to_parquet y s w) as [s1 w1]. by apply IH.
Qed.

Lemma frame_nonempty_key s y : frame s y ≠ [] → y ∈ dict_keys (dataframes_by_year s).
Proof.
  unfold frame. intros Hf. destruct (decide (y ∈ dict_keys (dataframes_by_year s)))
    as [|Hy]; [done|].
  apply dict_get_None in Hy. by rewrite Hy in Hf.
Qed.

Lemma frame_set_eq s year rows :
  frame (set_frames s (dict_set (dataframes_by_year s) year rows)) year = rows.
Proof. rewrite frame_set. by case_decide. Qed.

Lemma frame_set_ne s year rows y :
  year ≠ y →
  frame (set_frames s (dict_set (dataframes_by_year s) year rows)) y
  = frame s y.
Proof. intros. rewrite frame_set. by case_decide. Qed.

Lemma saved_lines_ext s s' years :
  (∀ y, y ∈ years → frame s' y = frame s y) →
  saved_lines s' years = saved_lines s years.
Proof.
  unfold saved_lines. induction years as [|y t IH]; intros Hext; [done|].
  assert (frame s' y = frame s y) as Hy
    by (apply Hext, elem_of_cons; by left).
  assert (∀ y0, y0 ∈ t → frame s' y0 = frame s y0) as Ht
    by (intros y0 ?; apply Hext, elem_of_cons; by right).
  destruct (decide (frame s y = [])) as [He|Hne].
  - rewrite !filter_cons_False; [rewrite ?Hy He; by intros ?..|]. by apply IH.
  - rewrite !filter_cons_True; [by rewrite ?Hy..|].
    rewrite !fmap_cons Hy. f_equal. by apply IH.
Qed.

Lemma save_step_empty s w y : frame s y = [] → save_step (s, w) y = (s, w).
Proof. unfold save_step. cbn [fst snd]. by intros ->. Qed.

Lemma save_step_nonempty s w y :
  frame s y ≠ [] → save_step (s, w) y = save_to_parquet y s w.
Proof. unfold save_step. cbn [fst snd]. by destruct (frame s y). Qed.

(** A pass over distinct years, every attempt succeeding: the frames of
    the years are emptied, each year that had rows received them in its
    dataset, by one attempt each. *)
Lemma save_steps_healthy years s w :
  NoDup years → healthy w →
  ∃ s' w',
    foldl save_step (s, w) years = (s', w')
    ∧ (∀ y, y ∈ years → frame s' y = [])
    ∧ (∀ y, y ∉ years → frame s' y = frame s y)
    ∧ (∀ y, y ∈ years → frame s y ≠ [] →
         files w' !! y = Some (merge_persist (files w !! y) (frame s y)))
    ∧ (∀ y, y ∉ years ∨ frame s y = [] → files w' !! y = files w !! y)
    ∧ printed w' = printed w ++ saved_lines s years.
Proof.
  revert s w. induction years as [|y t IH]; intros s w Hnd Hw.
  - exists s, w. split_and!; try done.
    + by intros y ?%not_elem_of_nil.
    + by intros y ?%not_elem_of_nil.
    + by rewrite /saved_lines app_nil_r.
  - apply NoDup_cons in Hnd as [Hy Hnd]. cbn [foldl].
    destruct (decide (frame s y = [])) as [He|Hne].
    + rewrite save_step_empty //.
      destruct (IH s w Hnd Hw) as (s' & w' & -> & Hin & Hout & Hsaved & Hkept & Hp).
      exists s', w'. split_and!; [done|..].
      * intros y0 [->|?]%elem_of_cons; [by rewrite Hout|by apply Hin].
      * intros y0 [? ?]%not_elem_of_cons. by apply Hout.
      * intros y0 [->|?]%elem_of_cons ?; [done|by apply Hsaved].
      * intros y0 [[? ?]%not_elem_of_cons|?]; apply Hkept; [by left|].
        destruct (decide (y0 ∈ t)); [by right|by left].
      * rewrite Hp /saved_lines filter_cons_False //. by intros ?.
    + rewrite save_step_nonempty //.
      rewrite save_to_parquet_ok; [done|by apply healthy_next|].
      set (s1 := set_frames s _). set (w1 := mkWorld _ _ _).
      destruct (IH s1 w1 Hnd)
        as (s' & w' & -> & Hin & Hout & Hsaved & Hkept & Hp).
      { by apply healthy_tail. }
      assert (∀ y0, y0 ∈ t → frame s1 y0 = frame s y0) as Hs1.
      { intros y0 Hy0. apply frame_set_ne. by intros ->. }
      exists s', w'. split_and!; [done|..].
      * intros y0 [->|?]%elem_of_cons; [|by apply Hin].
        rewrite Hout //. apply frame_set_eq.
      * intros y0 [? ?]%not_elem_of_cons. rewrite Hout //.
        by apply frame_set_ne.
      * intros y0 [->|Hy0]%elem_of_cons Hrows.
        -- rewrite Hkept; [by left|]. cbn [files w1].
           by rewrite lookup_insert_eq.
        -- rewrite Hsaved; [done|by rewrite Hs1|]. rewrite Hs1 //.
           cbn [files w1]. rewrite lookup_insert_ne; [by intros ->|done].
      * intros y0 [[Hy0 ?]%not_elem_of_cons|He].
        -- rewrite Hkept; [by left|]. cbn [files w1].
           by rewrite lookup_insert_ne.
        -- assert (y ≠ y0) as Hy0 by (intros ->; by rewrite He in Hne).
           rewrite Hkept; [right; by rewrite frame_set_ne|].
           cbn [files w1]. by rewrite lookup_insert_ne.
      * rewrite Hp. cbn [printed w1]. rewrite -app_assoc. cbn [app].
        rewrite (saved_lines_ext s s1 t Hs1) {2}/saved_lines.
        rewrite filter_cons_True; [done|].
        by rewrite fmap_cons.
Qed.

(** *** What the loop preserves *)

Lemma add_year_rows_keys s g :
  NoDup (dict_keys (dataframes_by_year s)) →
  NoDup (dict_keys (dataframes_by_year (add_year_rows s g))).
Proof.
  intros Hs. destruct g as [y g]. unfold add_year_rows.
  cbn [dataframes_by_year count_records set_frames].
  case_match; by repeat apply dict_keys_set_NoDup.
Qed.

Lemma add_rows_keys rows s :
  NoDup (dict_keys (dataframes_by_year s)) →
  NoDup (dict_keys (dataframes_by_year (add_rows rows s))).
Proof.
  unfold add_rows. destruct rows as [|r0 rows0]; [done|].
  generalize (group_by_year (r0 :: rows0)). intros groups. revert s.
  induction groups as [|g t IH]; intros s Hs; [done|].
  cbn [foldl]. by apply IH, add_year_rows_keys.
Qed.

Lemma fetch_frames r s data s' :
  fetch_convocatoria r s = (data, s') →
  dataframes_by_year s' = dataframes_by_year s.
Proof.
  unfold fetch_convocatoria. intros Hf.
  destruct r as [status body| |]; repeat case_match; by simplify_eq.
Qed.

Lemma run_loop_tidy script s w reason sL wL :
  tidy s w → loop script s w = (reason, sL, wL) → tidy sL wL.
Proof.
  revert s w. induction script as [|r t IH]; intros s w Hsw;
    cbn [run_loop]; case_bool_decide as Hc;
    try (by intros [= <- <- <-]).
  destruct (fetch_convocatoria r s) as [[data|] s0] eqn:Hf.
  2: { intros [= <- <- <-]. destruct Hsw as [Hk Hw].
       split; [|done]. by rewrite (fetch_frames _ _ _ _ Hf). }
  assert (tidy s0 w) as Hs0.
  { destruct Hsw as [Hk Hw]. split; [|done].
    by rewrite (fetch_frames _ _ _ _ Hf). }
  destruct (truthy data); [|by apply IH].
  destruct (transform_data strptime_year data) as [rows|e];
    [|by intros [= <- <- <-]].
  assert (tidy (add_rows rows s0) w) as Hs1.
  { destruct Hs0 as [Hk Hw]. split; [by apply add_rows_keys|done]. }
  destruct (periodic_due (add_rows rows s0)); [|by apply IH].
  pose proof (save_steps_tidy (dict_keys (dataframes_by_year (add_rows rows s0)))
                _ _ Hs1) as Hs2.
  fold (save_all (add_rows rows s0) w) in Hs2.
  destruct (save_all (add_rows rows s0) w) as [s2 w2]. by apply IH.
Qed.

(** C7, as amended. Whatever ends the loop (the counter, an interrupt, an
    uncaught exception), the [finally] block passes once over the frames:
    with storage attempts that succeed, every year with buffered rows gets
    exactly one attempt, all frames are empty afterwards, the dataset of
    such a year is the merge of what it held with the buffered rows, and
    the other datasets are untouched. Of the buffered rows of a year, the
    last one of each identifier is in the dataset, and every one of them is
    when the year had no dataset before. *)
Theorem final_flush script s w reason sL wL :
  loop script s w = (reason, sL, wL) →
  reason ≠ StillRunning →
  tidy s w →
  ∃ s' w',
    run strptime_year script s w = (reason, s', w')
    ∧ NoDup (dict_keys (dataframes_by_year sL))
    ∧ printed w'
      = printed wL ++ saved_lines sL (dict_keys (dataframes_by_year sL))
    ∧ (∀ y, frame s' y = [])
    ∧ (∀ y, frame sL y ≠ [] →
         files w' !! y
         = Some (merge_persist (files wL !! y) (frame sL y)))
    ∧ (∀ y, frame sL y = [] → files w' !! y = files wL !! y)
    ∧ (∀ y r, r ∈ frame sL y →
         ∃ stored kept,
           files w' !! y = Some stored
           ∧ last (with_code (codigo r) (frame sL y)) = Some kept
           ∧ kept ∈ stored
           ∧ (files wL !! y = None → r ∈ stored)).
Proof.
  intros Hrun Hreason Hsw.
  destruct (run_loop_tidy _ _ _ _ _ _ Hsw Hrun) as [Hk Hw].
  destruct (save_steps_healthy (dict_keys (dataframes_by_year sL)) sL wL Hk Hw)
    as (s' & w' & Hpass & Hin & Hout & Hsaved & Hkept & Hp).
  assert (∀ y, frame sL y ≠ [] → y ∈ dict_keys (dataframes_by_year sL))
    as Hkey by apply frame_nonempty_key.
  exists s', w'. split_and!.
  - unfold run. rewrite Hrun. unfold save_all. rewrite Hpass.
    by destruct reason.
  - done.
  - done.
  - intros y. destruct (decide (y ∈ dict_keys (dataframes_by_year sL)))
      as [Hy|Hy]; [by apply Hin|].
    rewrite Hout //. destruct (decide (frame sL y = [])) as [|Hne]; [done|].
    by apply Hkey in Hne.
  - intros y Hne. apply Hsaved; [by apply Hkey|done].
  - intros y He. apply Hkept. by right.
  - intros y r Hr.
    assert (frame sL y ≠ []) as Hne.
    { intros He. rewrite He in Hr. by apply not_elem_of_nil in Hr. }
    destruct (merge_persist_keeps (files wL !! y) _ _ Hr)
      as (kept & Hlast & Hkin & Hall).
    eexists _, kept. split_and!; [by apply Hsaved; [apply Hkey|]|done..].
Qed.
End Driver.

(** ** The resume point *)

Section Resume.
Variable int_of_str : string → option Z.

Lemma foldl_max_bounds (z : Z) (t : list Z) :
  foldl Z.max z t ∈ z :: t ∧ ∀ x, x ∈ z :: t → (x ≤ foldl Z.max z t)%Z.
Proof.
  revert z. induction t as [|y t IH]; intros z; cbn [foldl].
  - split; [apply elem_of_cons; by left|].
    intros x ->%list_elem_of_singleton. lia.
  - destruct (IH (z `max` y)%Z) as [Hin Hle]. split.
    + apply elem_of_cons in Hin as [Hm|Hm].
      * rewrite Hm. destruct (Z.max_spec z y) as [[_ ->]|[_ ->]].
        -- apply elem_of_cons. right. apply elem_of_cons. by left.
        -- apply elem_of_cons. by left.
      * apply elem_of_cons. right. apply elem_of_cons. by right.
    + intros x Hx.
      assert (z `max` y ≤ foldl Z.max (z `max` y) t)%Z as Hzy
        by (apply Hle, elem_of_cons; by left).
      apply elem_of_cons in Hx as [->|Hx]; [lia|].
      apply elem_of_cons in Hx as [->|Hx]; [lia|].
      apply Hle, elem_of_cons. by right.
Qed.

Lemma column_as_int (df : list row) (zs : list Z) :
  codigo <$> df = JInt <$> zs →
  Forall (λ z, - 2 ^ 63 ≤ z < 2 ^ 63)%Z zs →
  mapM (λ r, as_int int_of_str (codigo r)) df = Ok zs.
Proof.
  revert zs. induction df as [|r df IH]; intros [|z zs]; try done.
  rewrite !fmap_cons. intros [= Hr Hdf] [Hz Hzs]%Forall_cons.
  cbn [mapM]. rewrite Hr. cbn [as_int]. unfold int64.
  rewrite bool_decide_eq_true_2 //. cbn. by rewrite (IH zs).
Qed.

Lemma columns_as_int (parquet_files : list (list row)) (ids : list (list Z)) :
  (λ df : list row, codigo <$> df) <$> parquet_files
  = (λ zs : list Z, JInt <$> zs) <$> ids →
  Forall (λ z, - 2 ^ 63 ≤ z < 2 ^ 63)%Z (concat ids) →
  mapM (λ df, mapM (λ r, as_int int_of_str (codigo r)) df) parquet_files
  = Ok ids.
Proof.
  revert ids. induction parquet_files as [|df fs IH]; intros [|zs ids];
    try done.
  rewrite !fmap_cons. intros [= Hdf Hfs]. cbn [concat].
  intros [Hzs Hids]%Forall_app. cbn [mapM].
  rewrite (column_as_int df zs) //. cbn. by rewrite (IH ids).
Qed.

(** C9. Without any dataset file the start is the fallback 600000; with
    files whose identifier columns hold the integers [ids], at least one
    of them, the start is one past their maximum. *)
Theorem resume_point (parquet_files : list (list row)) (ids : list (list Z)) :
  (λ df : list row, codigo <$> df) <$> parquet_files
  = (λ zs : list Z, JInt <$> zs) <$> ids →
  Forall (λ z, - 2 ^ 63 ≤ z < 2 ^ 63)%Z (concat ids) →
  (parquet_files = [] →
     find_last_bdns int_of_str parquet_files = Ok 600000%Z)
  ∧ (concat ids ≠ [] →
       ∃ max_bdns,
         find_last_bdns int_of_str parquet_files = Ok (max_bdns + 1)%Z
         ∧ max_bdns ∈ concat ids
         ∧ ∀ z, z ∈ concat ids → (z ≤ max_bdns)%Z).
Proof.
  intros Hcols Hrange. split; [by intros ->|]. intros Hne.
  unfold find_last_bdns. destruct parquet_files as [|df fs].
  { by destruct ids. }
  rewrite (columns_as_int _ ids) //. cbn [mbind result_bind].
  destruct (concat ids) as [|z t] eqn:Hids; [done|]. cbn [py_max].
  destruct (foldl_max_bounds z t) as [Hin Hle]. by eexists.
Qed.
End Resume.

(** * Runs on sample data *)

(** C3. Thirty-four records of three rows each: the counter of buffered rows
    goes from 99 to 102 on the last one, past the multiple of 100, and nothing
    is flushed: no storage attempt is printed, no dataset exists, the 102
    rows are all still in the frame of 2024. *)
Theorem periodic_flush_skipped_past_multiple :
  let script := replicate 34 (found three_instruments) in
  ∃ s33 w33 s34 w34,
    run_loop strptime_Ymd_year (take 33 script) fresh.1 fresh.2
    = (StillRunning, s33, w33)
    ∧ total_records s33 = 99%Z
    ∧ run_loop strptime_Ymd_year script fresh.1 fresh.2
      = (StillRunning, s34, w34)
    ∧ total_records s34 = 102%Z
    ∧ periodic_due s34 = false
    ∧ printed w34 = []
    ∧ files w34 = ∅
    ∧ length (frame s34 2024) = 102.
Proof.
  eexists _, _, _, _.
  split; [vm_compute; reflexivity|]. split; [reflexivity|].
  split; [vm_compute; reflexivity|]. by vm_compute.
Qed.

(** Counterexample to C1 as stated: after ten server errors in a row the
    counter of the termination property is at the threshold, yet the driver
    makes an eleventh request and its own counter is still 0. *)
Lemma transient_errors_do_not_stop :
  foldl consecutive_non_found 0%Z (replicate 10 server_error)
  = MAX_CONSECUTIVE_404
  ∧ ∃ s' w',
      run_loop strptime_Ymd_year (replicate 11 server_error) fresh.1 fresh.2
      = (StillRunning, s', w')
      ∧ total_requests s' = 11%Z
      ∧ consecutive_404s s' = 0%Z.
Proof.
  split; [reflexivity|]. eexists _, _.
  split; [vm_compute; reflexivity|]. by vm_compute.
Qed.

(** Counterexample to C4 as stated: a year without dataset and two rows of
    one announcement; one flush stores both rows, the second flush leaves
    one. *)
Lemma flush_twice_differs :
  let rows := [mini_row 7 "a"; mini_row 7 "b"] in
  files (flush 2024 rows fresh).2 !! 2024%Z = Some rows
  ∧ files (flush 2024 rows (flush 2024 rows fresh)).2 !! 2024%Z
    = Some [mini_row 7 "b"].
Proof. split; by vm_compute. Qed.

(** Counterexample to C6 as stated: the periodic flush after 100 rows fails;
    the rows are not lost, the final flush stores all 100 of them. *)
Lemma failed_flush_rows_persist_later :
  ∃ s' w',
    run strptime_Ymd_year hundred_then_end fresh.1 (mkWorld ∅ [false] [])
    = (MaxConsecutiveFailures, s', w')
    ∧ printed w' = [SaveError 2024; Saved 2024 100]
    ∧ (λ df : list row, codigo <$> df) <$> files w' !! 2024%Z
      = Some ((λ i, JInt (Z.of_nat i)) <$> seq 1 100).
Proof.
  eexists _, _. split; [vm_compute; reflexivity|]. by vm_compute.
Qed.

(** Counterexample to C7 as stated: 2024 has a dataset, one record of two
    rows is buffered, ten 404 answers stop the driver. Both rows are in the
    frame when the loop ends; after the final flush the first one is not in
    the dataset. *)
Lemma final_flush_drops_rows :
  let script := found two_instruments :: replicate 10 not_found in
  let w := with_dataset 2024 [mini_row 1 "old"] in
  ∃ sL wL s' w' row1 row2 stored,
    run_loop strptime_Ymd_year script fresh.1 w
    = (MaxConsecutiveFailures, sL, wL)
    ∧ frame sL 2024 = [row1; row2]
    ∧ run strptime_Ymd_year script fresh.1 w = (MaxConsecutiveFailures, s', w')
    ∧ files w' !! 2024%Z = Some stored
    ∧ stored = [mini_row 1 "old"; row2]
    ∧ row1 ∉ stored.
Proof.
  eexists _, _, _, _, _, _, _.
  split; [vm_compute; reflexivity|]. split; [vm_compute; reflexivity|].
  split; [vm_compute; reflexivity|]. split; [vm_compute; reflexivity|].
  split; [reflexivity|]. by apply (bool_decide_unpack _); vm_compute.
Qed.

(** The example of the resume property. *)
Example resume_example :
  find_last_bdns int_of_digits
    [[mini_row 100 "a"; mini_row 105 "b"]; [mini_row 200 "c"]]
  = Ok 201%Z.
Proof. reflexivity. Qed.

(** The end-to-end scenario: the record flattens into its two rows, one per
    instrument, both of year 2024. *)
Example scenario_two_rows :
  ∃ rows,
    transform_data strptime_Ymd_year (JObj two_instruments) = Ok rows
    ∧ (λ r : row, (get r "year", get r "instrumento_descripcion")) <$> rows
      = [(JInt 2024, JStr "Subvencion"); (JInt 2024, JStr "Prestamo")].
Proof. eexists. split; [vm_compute; reflexivity|reflexivity]. Qed.

(** ** The theorems at sample inputs *)

Lemma stop_rule_witness :
  let script := found two_instruments :: replicate 11 not_found in
  Forall (λ r, uneventful strptime_Ymd_year r = true) script
  ∧ ∃ s' w',
      run_loop strptime_Ymd_year script fresh.1 fresh.2
      = (MaxConsecutiveFailures, s', w')
      ∧ current_bdns s' = (current_bdns fresh.1 + 11)%Z.
Proof.
  intros script.
  assert (Forall (λ r, uneventful strptime_Ymd_year r = true) script) as Hq
    by (by apply (bool_decide_unpack _); vm_compute).
  split; [exact Hq|].
  destruct (stop_rule strptime_Ymd_year script fresh.1 fresh.2 Hq)
    as (s' & w' & Hstop).
  change (probes_until_stop (consecutive_404s fresh.1) script)
    with (Some 11) in Hstop.
  destruct Hstop as (Hrun & Hcursor & _). by exists s', w'.
Defined.


Lemma flush_twice_idempotent_witness :
  let rows := [mini_row 7 "a"; mini_row 7 "b"] in
  let w := with_dataset 2024 [mini_row 7 "old"] in
  healthy w
  ∧ (is_Some (files w !! 2024%Z) ∨ NoDup (codigo <$> rows))
  ∧ files (flush 2024 rows (flush 2024 rows (init 1, w))).2
    = files (flush 2024 rows (init 1, w)).2.
Proof.
  intros rows w.
  assert (healthy w) as Hw by constructor.
  assert (is_Some (files w !! 2024%Z) ∨ NoDup (codigo <$> rows)) as Hcase
    by (left; by eexists).
  split_and!; [done..|].
  exact (flush_twice_idempotent 2024 rows (init 1) w Hw Hcase).
Defined.

Lemma merge_precedence_witness :
  let w := with_dataset 2024 [mini_row 7 "V1"; mini_row 8 "other"] in
  files w !! 2024%Z = Some [mini_row 7 "V1"; mini_row 8 "other"]
  ∧ next_attempt w = true
  ∧ ∃ stored,
      files (flush 2024 [mini_row 7 "V2"] (init 1, w)).2 !! 2024%Z = Some stored
      ∧ with_code (JInt 7) stored = [mini_row 7 "V2"].
Proof.
  intros w.
  assert (files w !! 2024%Z = Some [mini_row 7 "V1"; mini_row 8 "other"])
    as Hfile by reflexivity.
  split_and!; [done..|].
  apply (merge_precedence 2024 _ [] (mini_row 7 "V2") [] (JInt 7) (init 1) w
           Hfile); [reflexivity|reflexivity|].
  apply not_elem_of_nil.
Defined.

Lemma merge_unique_witness :
  let w := with_dataset 2024 [mini_row 7 "V1"; mini_row 8 "other"] in
  let rows := [mini_row 7 "V2"; mini_row 9 "new"; mini_row 7 "V3"] in
  files w !! 2024%Z = Some [mini_row 7 "V1"; mini_row 8 "other"]
  ∧ next_attempt w = true
  ∧ rows ≠ []
  ∧ ∃ stored,
      files (flush 2024 rows (init 1, w)).2 !! 2024%Z = Some stored
      ∧ NoDup (codigo <$> stored).
Proof.
  intros w rows.
  assert (files w !! 2024%Z = Some [mini_row 7 "V1"; mini_row 8 "other"])
    as Hfile by reflexivity.
  assert (rows ≠ []) as Hrows by done.
  split_and!; [done..|].
  destruct (merge_unique 2024 _ rows (init 1) w Hfile eq_refl Hrows)
    as (stored & Hstored & Hnd & _).
  by exists stored.
Defined.

Lemma flush_keeps_last_of_batch_witness :
  let w := with_dataset 2024 [mini_row 8 "other"] in
  let rows := [mini_row 7 "a"; mini_row 7 "b"; mini_row 7 "c"] in
  next_attempt w = true
  ∧ JInt 7 ∈ codigo <$> rows
  ∧ ∃ stored,
      files (flush 2024 rows (init 1, w)).2 !! 2024%Z = Some stored
      ∧ with_code (JInt 7) stored = [mini_row 7 "c"].
Proof.
  intros w rows.
  assert (JInt 7 ∈ codigo <$> rows) as Hx
    by (by apply (bool_decide_unpack _); vm_compute).
  split_and!; [done..|].
  destruct (flush_keeps_last_of_batch 2024 rows (JInt 7) (init 1) w eq_refl Hx)
    as [Hmerge _].
  destruct (Hmerge [mini_row 8 "other"] eq_refl)
    as (stored & final & Hstored & Hlast & Hkept).
  exists stored. split; [done|]. rewrite Hkept.
  by injection Hlast as <-.
Defined.

Lemma failed_save_keeps_rows_witness :
  let s := buffer_rows 2024 [mini_row 7 "a"] (init 1) in
  let w := mkWorld ∅ [false; true] [] in
  frame s 2024 ≠ []
  ∧ next_attempt w = false
  ∧ ∃ w',
      save_to_parquet 2024 s w = (s, w')
      ∧ printed w' = [SaveError 2024]
      ∧ files (save_to_parquet 2024 s w').2 !! 2024%Z = Some [mini_row 7 "a"].
Proof.
  intros s w.
  assert (frame s 2024 ≠ []) as Hrows by done.
  split_and!; [done..|].
  destruct (failed_save_keeps_rows 2024 s w Hrows eq_refl)
    as (w' & Hsave & Hfiles & Hprinted & Hstorage & _ & Hlater).
  exists w'. split_and!; [done|done|].
  rewrite Hlater; [|done].
  unfold next_attempt. by rewrite Hstorage.
Defined.

Lemma final_flush_witness :
  let script := found two_instruments :: replicate 10 not_found in
  let w := with_dataset 2024 [mini_row 1 "old"] in
  tidy fresh.1 w
  ∧ ∃ s' w',
      run strptime_Ymd_year script fresh.1 w = (MaxConsecutiveFailures, s', w')
      ∧ (∀ y, frame s' y = []).
Proof.
  intros script w.
  assert (tidy fresh.1 w) as Ht by (split; constructor).
  split; [exact Ht|].
  destruct (run_loop strptime_Ymd_year script fresh.1 w) as [[reason sL] wL]
    eqn:Hrun.
  assert (reason = MaxConsecutiveFailures) as ->.
  { pose proof Hrun as Hval. vm_compute in Hval. by injection Hval. }
  destruct (final_flush strptime_Ymd_year script fresh.1 w _ sL wL Hrun
              ltac:(done) Ht)
    as (s' & w' & Hfinal & _ & _ & Hempty & _).
  by exists s', w'.
Defined.

Lemma resume_point_witness :
  let parquet_files :=
    [[mini_row 100 "a"; mini_row 105 "b"]; [mini_row 200 "c"]] in
  let ids := [[100; 105]; [200]]%Z in
  (λ df : list row, codigo <$> df) <$> parquet_files
  = (λ zs : list Z, JInt <$> zs) <$> ids
  ∧ Forall (λ z, - 2 ^ 63 ≤ z < 2 ^ 63)%Z (concat ids)
  ∧ ∃ max_bdns,
      find_last_bdns int_of_digits parquet_files = Ok (max_bdns + 1)%Z
      ∧ max_bdns ∈ concat ids
      ∧ ∀ z, z ∈ concat ids → (z ≤ max_bdns)%Z.
Proof.
  intros parquet_files ids.
  assert (Forall (λ z, - 2 ^ 63 ≤ z < 2 ^ 63)%Z (concat ids)) as Hrange
    by (repeat constructor; lia).
  split_and!; [reflexivity|exact Hrange|].
  by apply (resume_point int_of_digits parquet_files ids eq_refl Hrange).
Defined.


(** * Further properties *)

(** ** The flattener, on any record *)

Section FlattenerInversion.
Variable strptime_year : string → option Z.

Lemma mapM_inv {A B} (f : A → result B) (l : list A) (bs : list B) :
  mapM f l = Ok bs → Forall2 (λ a b, f a = Ok b) l bs.
Proof.
  revert bs. induction l as [|a t IH]; intros bs; cbn [mapM].
  - intros [= <-]. constructor.
  - destruct (f a) as [b|e] eqn:Hb; cbn; [|done].
    destruct (mapM f t) as [bs'|e]; cbn; [|done].
    intros [= <-]. constructor; [done|by apply IH].
Qed.

Lemma bind_result_inv {A B} (m : result A) (k : A → result B) (b : B) :
  (a ← m; k a) = Ok b → ∃ a, m = Ok a ∧ k a = Ok b.
Proof. destruct m as [a|e]; cbn; [by exists a|done]. Qed.

Lemma attr_get_inv (x : json) (k : string) (v : json) :
  attr_get x k = Ok v → ∃ m, x = JObj m ∧ v = get m k.
Proof. destruct x; cbn; try done. intros [= <-]. by eexists. Qed.

Lemma make_row_inv base t (r : row) :
  make_row base t = Ok r →
  ∃ a b c e,
    t = (JObj a, JObj b, JObj c, JObj e)
    ∧ r = dict_set (dict_set (dict_set (dict_set (dict_set base
            "instrumento_descripcion" (get a "descripcion"))
            "tipoBeneficiario_descripcion" (get b "descripcion"))
            "sector_descripcion" (get c "descripcion"))
            "sector_codigo" (get c "codigo"))
            "region_descripcion" (get e "descripcion").
Proof.
  destruct t as [[[x y] z] u]. unfold make_row. intros H.
  apply bind_result_inv in H as (v1 & (a & -> & ->)%attr_get_inv & H).
  apply bind_result_inv in H as (v2 & (b & -> & ->)%attr_get_inv & H).
  apply bind_result_inv in H as (v3 & (c & -> & ->)%attr_get_inv & H).
  apply bind_result_inv in H as (v4 & (c' & [= <-] & ->)%attr_get_inv & H).
  apply bind_result_inv in H as (v5 & (e & -> & ->)%attr_get_inv & H).
  injection H as <-. by exists a, b, c, e.
Qed.

Lemma base_get_fecha d n1 n2 n3 :
  get (dict_set (dict_set (dict_set ((λ k, (k, get d k)) <$> base_keys)
         "organo_nivel1" n1) "organo_nivel2" n2) "organo_nivel3" n3)
      "fechaRecepcion"
  = get d "fechaRecepcion".
Proof.
  unfold get at 1. do 3 (rewrite dict_get_set_ne; [done|]).
  rewrite dict_get_table; [|done].
  by apply (bool_decide_unpack _); vm_compute.
Qed.

(** What a successful call went through: the record is a dict, its [organo]
    is a dict, the four dimensions could be iterated, and each row came out
    of the loop body on one element of their product. *)
Lemma transform_data_rows data rows :
  transform_data strptime_year data = Ok rows →
  ∃ d o li lb ls lr,
    data = JObj d
    ∧ get_default d "organo" (JObj []) = JObj o
    ∧ py_iter (dimension d "instrumentos") = Ok li
    ∧ py_iter (dimension d "tiposBeneficiarios") = Ok lb
    ∧ py_iter (dimension d "sectores") = Ok ls
    ∧ py_iter (dimension d "regiones") = Ok lr
    ∧ Forall2 (λ t r, make_row (base_data_of strptime_year d o) t = Ok r)
        (x ← li; y ← lb; z ← ls; u ← lr; [(x, y, z, u)]) rows.
Proof.
  destruct data as [| | | | |d]; try done. unfold transform_data. intros H.
  apply bind_result_inv in H as (n1 & (o & Ho & ->)%attr_get_inv & H).
  rewrite Ho in H. cbn [attr_get mbind result_bind] in H.
  rewrite base_get_fecha in H. fold (base_data_of strptime_year d o) in H.
  unfold product4 in H.
  apply bind_result_inv in H as (combos & Hc & H).
  apply bind_result_inv in Hc as (li & Hi & Hc).
  apply bind_result_inv in Hc as (lb & Hb & Hc).
  apply bind_result_inv in Hc as (ls & Hs & Hc).
  apply bind_result_inv in Hc as (lr & Hr & Hc).
  injection Hc as <-. apply mapM_inv in H.
  by exists d, o, li, lb, ls, lr.
Qed.

Lemma dimension_truthy d k : truthy (dimension d k) = true.
Proof.
  unfold dimension. by destruct (truthy (get_default d k placeholder)) eqn:Ht.
Qed.

Lemma py_iter_nonempty v l :
  py_iter v = Ok l → truthy v = true → l ≠ [].
Proof.
  destruct v as [|b|z|str|items|m]; cbn [py_iter truthy]; try done.
  - intros [= <-]. by destruct str.
  - intros [= <-]. by destruct items.
  - intros [= <-]. by destruct m.
Qed.

Lemma bind_nonempty {A B} (f : A → list B) (l : list A) :
  l ≠ [] → (∀ a, f a ≠ []) → l ≫= f ≠ [].
Proof.
  destruct l as [|a t]; [done|]. intros _ Hf. rewrite bind_cons.
  specialize (Hf a). by destruct (f a).
Qed.

(** X1. A successful call never returns an empty list: every record that
    flattens gives at least one row. *)
Theorem transform_data_nonempty data rows :
  transform_data strptime_year data = Ok rows → rows ≠ [].
Proof.
  intros (d & o & li & lb & ls & lr & -> & _ & Hi & Hb & Hs & Hr & Hrows)
    %transform_data_rows.
  apply py_iter_nonempty in Hi, Hb, Hs, Hr; try apply dimension_truthy.
  intros ->. apply Forall2_nil_inv_r in Hrows. revert Hrows.
  apply bind_nonempty; [done|]. intros x.
  apply bind_nonempty; [done|]. intros y.
  apply bind_nonempty; [done|]. intros z.
  by apply bind_nonempty.
Qed.

Lemma dict_keys_set_fresh {K V} `{EqDecision K} (d : list (K * V)) k v :
  k ∉ dict_keys d → dict_keys (dict_set d k v) = dict_keys d ++ [k].
Proof. intros Hk. rewrite dict_keys_set. by case_decide. Qed.

Lemma dict_keys_table (f : string → json) (ks : list string) :
  dict_keys ((λ k, (k, f k)) <$> ks) = ks.
Proof.
  unfold dict_keys. induction ks as [|k t IH]; [done|].
  rewrite !fmap_cons. cbn [fst]. by rewrite IH.
Qed.

Ltac fresh_key := by apply (bool_decide_unpack _); vm_compute.

Lemma base_data_keys d o :
  dict_keys (base_data_of strptime_year d o)
  = base_keys ++ ["organo_nivel1"; "organo_nivel2"; "organo_nivel3"; "year"].
Proof.
  unfold base_data_of.
  rewrite dict_keys_set_fresh.
  all: rewrite dict_keys_set_fresh.
  all: try rewrite dict_keys_set_fresh.
  all: try rewrite dict_keys_set_fresh.
  all: rewrite ?dict_keys_table; fresh_key.
Qed.

Lemma row_keys (base : py_dict) (a b c c' e : json) :
  dict_keys base
  = base_keys ++ ["organo_nivel1"; "organo_nivel2"; "organo_nivel3"; "year"] →
  dict_keys (dict_set (dict_set (dict_set (dict_set (dict_set base
    "instrumento_descripcion" a) "tipoBeneficiario_descripcion" b)
    "sector_descripcion" c) "sector_codigo" c') "region_descripcion" e)
  = row_columns.
Proof.
  intros Hbase.
  rewrite dict_keys_set_fresh.
  all: rewrite dict_keys_set_fresh.
  all: try rewrite dict_keys_set_fresh.
  all: try rewrite dict_keys_set_fresh.
  all: try rewrite dict_keys_set_fresh.
  all: rewrite ?Hbase; fresh_key.
Qed.

Lemma Forall2_in_r {A B} (P : A → B → Prop) (l : list A) (k : list B) b :
  Forall2 P l k → b ∈ k → ∃ a, a ∈ l ∧ P a b.
Proof.
  induction 1 as [|a0 b0 l k H0 H IH]; [by intros ?%not_elem_of_nil|].
  intros [->|Hb]%elem_of_cons.
  - exists a0. split; [apply elem_of_cons; by left|done].
  - destruct (IH Hb) as (a & Ha & HP). exists a.
    split; [apply elem_of_cons; by right|done].
Qed.

(** Each row of a successful call is [base_data] with the five dimension
    columns set from one element of each dimension. *)
Lemma transform_data_row d rows (r : row) :
  transform_data strptime_year (JObj d) = Ok rows → r ∈ rows →
  ∃ o a b c e,
    get_default d "organo" (JObj []) = JObj o
    ∧ r = dict_set (dict_set (dict_set (dict_set (dict_set
            (base_data_of strptime_year d o)
            "instrumento_descripcion" (get a "descripcion"))
            "tipoBeneficiario_descripcion" (get b "descripcion"))
            "sector_descripcion" (get c "descripcion"))
            "sector_codigo" (get c "codigo"))
            "region_descripcion" (get e "descripcion").
Proof.
  intros (d' & o & li & lb & ls & lr & [= <-] & Ho & _ & _ & _ & _ & Hrows)
    %transform_data_rows Hr.
  destruct (Forall2_in_r _ _ _ _ Hrows Hr) as (t & _ & Ht).
  apply make_row_inv in Ht as (a & b & c & e & _ & ->).
  by exists o, a, b, c, e.
Qed.

(** X2. Every row of a successful call has the same 27 columns, in the same
    order: the 18 copied fields, the three levels of [organo], the year, and
    the five dimension columns. *)
Theorem transform_data_columns data rows (r : row) :
  transform_data strptime_year data = Ok rows →
  r ∈ rows →
  dict_keys r = row_columns ∧ length (dict_keys r) = 27.
Proof.
  intros Hok Hr.
  destruct (transform_data_rows _ _ Hok) as (d & ? & ? & ? & ? & ? & -> & _).
  destruct (transform_data_row _ _ _ Hok Hr) as (o & a & b & c & e & _ & ->).
  rewrite row_keys; [apply base_data_keys|done].
Qed.

(** X3. All rows of one record carry the identifier of the record and one
    year value, the one derived from its reception date. *)
Theorem transform_data_identity d rows (r : row) :
  transform_data strptime_year (JObj d) = Ok rows →
  r ∈ rows →
  codigo r = get d "codigoBDNS"
  ∧ get r "year" = year_of strptime_year (get d "fechaRecepcion").
Proof.
  intros Hok Hr.
  destruct (transform_data_row _ _ _ Hok Hr) as (o & a & b & c & e & _ & ->).
  unfold codigo, get, base_data_of. split.
  - do 9 (rewrite dict_get_set_ne; [done|]).
    rewrite dict_get_table; [fresh_key|done].
  - do 5 (rewrite dict_get_set_ne; [done|]).
    by rewrite dict_get_set_eq.
Qed.

Lemma dimension_wf_inv d k l :
  py_iter (dimension d k) = Ok l → Forall is_obj l → well_formed_dim d k.
Proof.
  unfold dimension, get_default, well_formed_dim.
  destruct (dict_get d k) as [v|]; cbn [default]; [|done].
  change (id v) with v.
  destruct (truthy v) eqn:Hv; [|by destruct v as [| | | |[|]|]].
  destruct v as [|b|z|str|items|m]; cbn [py_iter]; try done.
  - intros [= <-]. destruct str as [|c str]; [done|].
    cbn. by intros [[] _]%Forall_cons.
  - by intros [= <-].
  - intros [= <-]. destruct m as [|[k0 v0] m]; [done|].
    cbn. by intros [[] _]%Forall_cons.
Qed.

(** X4. The converse of the flattening property: a call succeeds only on a
    record that is an object, whose [organo] is an object or absent, and
    whose four dimensions are absent, falsy or lists of objects. On any
    other input [transform_data] raises. *)
Theorem transform_data_shape data rows :
  transform_data strptime_year data = Ok rows →
  ∃ d o,
    data = JObj d
    ∧ get_default d "organo" (JObj []) = JObj o
    ∧ well_formed_dim d "instrumentos"
    ∧ well_formed_dim d "tiposBeneficiarios"
    ∧ well_formed_dim d "sectores"
    ∧ well_formed_dim d "regiones".
Proof.
  intros (d & o & li & lb & ls & lr & -> & Ho & Hi & Hb & Hs & Hr & Hrows)
    %transform_data_rows.
  exists d, o. split; [done|]. split; [done|].
  pose proof (py_iter_nonempty _ _ Hi (dimension_truthy _ _)) as Ni.
  pose proof (py_iter_nonempty _ _ Hb (dimension_truthy _ _)) as Nb.
  pose proof (py_iter_nonempty _ _ Hs (dimension_truthy _ _)) as Ns.
  pose proof (py_iter_nonempty _ _ Hr (dimension_truthy _ _)) as Nr.
  assert (∀ x y z u, x ∈ li → y ∈ lb → z ∈ ls → u ∈ lr →
            is_obj x ∧ is_obj y ∧ is_obj z ∧ is_obj u) as Hall.
  { intros x y z u Hx Hy Hz Hu.
    assert ((x, y, z, u) ∈ (x ← li; y ← lb; z ← ls; u ← lr; [(x, y, z, u)]))
      as Hin.
    { apply list_elem_of_bind. exists x. split; [|done].
      apply list_elem_of_bind. exists y. split; [|done].
      apply list_elem_of_bind. exists z. split; [|done].
      apply list_elem_of_bind. exists u. split; [|done].
      by apply list_elem_of_singleton. }
    apply list_elem_of_lookup in Hin as [i Hi'].
    destruct (Forall2_lookup_l _ _ _ _ _ Hrows Hi') as (r & _ & Hrow).
    by apply make_row_inv in Hrow as (a & b & c & e & [= -> -> -> ->] & _). }
  destruct li as [|x0 li0]; [done|]. destruct lb as [|y0 lb0]; [done|].
  destruct ls as [|z0 ls0]; [done|]. destruct lr as [|u0 lr0]; [done|].
  assert (x0 ∈ x0 :: li0) as Hx0 by (apply elem_of_cons; by left).
  assert (y0 ∈ y0 :: lb0) as Hy0 by (apply elem_of_cons; by left).
  assert (z0 ∈ z0 :: ls0) as Hz0 by (apply elem_of_cons; by left).
  assert (u0 ∈ u0 :: lr0) as Hu0 by (apply elem_of_cons; by left).
  split_and!.
  - apply (dimension_wf_inv _ _ _ Hi), Forall_forall. intros x Hx.
    by destruct (Hall x y0 z0 u0).
  - apply (dimension_wf_inv _ _ _ Hb), Forall_forall. intros y Hy.
    by destruct (Hall x0 y z0 u0) as (_ & ? & _).
  - apply (dimension_wf_inv _ _ _ Hs), Forall_forall. intros z Hz.
    by destruct (Hall x0 y0 z u0) as (_ & _ & ? & _).
  - apply (dimension_wf_inv _ _ _ Hr), Forall_forall. intros u Hu.
    by destruct (Hall x0 y0 z0 u) as (_ & _ & _ & ?).
Qed.

(** X5. A record whose [organo] is present but not an object (a JSON null,
    for one) makes [transform_data] raise [AttributeError]. *)
Theorem transform_data_organo_not_object d v :
  dict_get d "organo" = Some v →
  ¬ is_obj v →
  transform_data strptime_year (JObj d) = Raise AttributeError.
Proof.
  intros Hv Hobj. unfold transform_data, get_default. rewrite Hv.
  cbn [default]. by destruct v.
Qed.

Lemma fmap_bind {A B C} (g : B → C) (f : A → list B) (l : list A) :
  g <$> (l ≫= f) = l ≫= (λ x, g <$> f x).
Proof.
  induction l as [|a t IH]; [done|]. by rewrite !bind_cons fmap_app IH.
Qed.

Lemma Forall2_fmap_eq {A B C} (f : B → C) (g : A → C) (l : list A)
    (k : list B) :
  Forall2 (λ a b, f b = g a) l k → f <$> k = g <$> l.
Proof. induction 1 as [|a b l k Hab H IH]; [done|]. by rewrite !fmap_cons Hab IH. Qed.

Lemma dim_items_iter d k l :
  py_iter (dimension d k) = Ok l → Forall is_obj l → dim_items d k = l.
Proof.
  intros Hl Hobj. pose proof (dimension_wf_inv _ _ _ Hl Hobj) as Hwf.
  destruct (dimension_wf _ _ Hwf) as (l' & Hdim & _).
  unfold dim_items. rewrite Hdim. rewrite Hdim in Hl. by injection Hl.
Qed.

Lemma get_set_eq (d : py_dict) k v : get (dict_set d k v) k = v.
Proof. unfold get. by rewrite dict_get_set_eq. Qed.

Lemma get_set_ne (d : py_dict) k k' v :
  k ≠ k' → get (dict_set d k v) k' = get d k'.
Proof. intros. unfold get. by rewrite dict_get_set_ne. Qed.

Lemma make_row_columns base t (r : row) :
  make_row base t = Ok r →
  dimension_columns r =
  (field_of "descripcion" t.1.1.1, field_of "descripcion" t.1.1.2,
   field_of "descripcion" t.1.2, field_of "codigo" t.1.2,
   field_of "descripcion" t.2).
Proof.
  intros (a & b & c & e & -> & ->)%make_row_inv.
  unfold dimension_columns. cbn [fst snd field_of].
  repeat first [rewrite get_set_eq | rewrite get_set_ne; [done|]].
  done.
Qed.

(** X6. The dimension columns of the rows enumerate the Cartesian product
    of the four dimensions in the order of [itertools.product]: instruments
    outermost, regions varying fastest; the two sector columns come from the
    same sector. *)
Theorem transform_data_product d rows :
  transform_data strptime_year (JObj d) = Ok rows →
  dimension_columns <$> rows =
  (x ← dim_items d "instrumentos";
   y ← dim_items d "tiposBeneficiarios";
   z ← dim_items d "sectores";
   u ← dim_items d "regiones";
   [(field_of "descripcion" x, field_of "descripcion" y,
     field_of "descripcion" z, field_of "codigo" z,
     field_of "descripcion" u)]).
Proof.
  intros Hok.
  destruct (transform_data_shape _ _ Hok)
    as (d' & o' & [= <-] & _ & Wi & Wb & Ws & Wr).
  destruct (transform_data_rows _ _ Hok)
    as (d' & o & li & lb & ls & lr & [= <-] & _ & Hi & Hb & Hs & Hr & Hrows).
  destruct (dimension_wf _ _ Wi) as (li' & Ei & Fi & _).
  destruct (dimension_wf _ _ Wb) as (lb' & Eb & Fb & _).
  destruct (dimension_wf _ _ Ws) as (ls' & Es & Fs & _).
  destruct (dimension_wf _ _ Wr) as (lr' & Er & Fr & _).
  unfold dim_items. rewrite Ei Eb Es Er.
  rewrite Ei in Hi. rewrite Eb in Hb. rewrite Es in Hs. rewrite Er in Hr.
  injection Hi as <-. injection Hb as <-. injection Hs as <-.
  injection Hr as <-.
  pose (g := λ t : json * json * json * json,
          (field_of "descripcion" t.1.1.1, field_of "descripcion" t.1.1.2,
           field_of "descripcion" t.1.2, field_of "codigo" t.1.2,
           field_of "descripcion" t.2)).
  match type of Hrows with
  | Forall2 _ ?combos _ => transitivity (g <$> combos)
  end.
  { apply Forall2_fmap_eq. eapply Forall2_impl; [exact Hrows|].
    intros t r Ht. by apply make_row_columns in Ht. }
  rewrite fmap_bind. apply list_bind_ext; [|done]. intros x.
  rewrite fmap_bind. apply list_bind_ext; [|done]. intros y.
  rewrite fmap_bind. apply list_bind_ext; [|done]. intros z.
  rewrite fmap_bind. apply list_bind_ext; [|done]. by intros u.
Qed.
End FlattenerInversion.

(** ** The buffer *)

Section Buffer.
Implicit Types (s : scraper) (rows : list row) (y : Z)
  (acc groups : list (Z * list row)).

Lemma group_by_year_steps rows : group_by_year rows = foldl group_step [] rows.
Proof. reflexivity. Qed.

Lemma by_year_cons_eq y (r : row) rows :
  row_year r = Some y → by_year y (r :: rows) = r :: by_year y rows.
Proof. intros. unfold by_year. by rewrite filter_cons_True. Qed.

Lemma by_year_cons_ne y (r : row) rows :
  row_year r ≠ Some y → by_year y (r :: rows) = by_year y rows.
Proof. intros. unfold by_year. by rewrite filter_cons_False. Qed.

Lemma group_steps_get acc rows y :
  dict_get (foldl group_step acc rows) y =
  match dict_get acc y, by_year y rows with
  | None, [] => None
  | o, l => Some (default [] o ++ l)
  end.
Proof.
  revert acc. induction rows as [|r t IH]; intros acc; cbn [foldl].
  - destruct (dict_get acc y); cbn; [by rewrite app_nil_r|done].
  - rewrite IH. unfold group_step. destruct (row_year r) as [y'|] eqn:Hr.
    + destruct (decide (y' = y)) as [->|Hy].
      * rewrite dict_get_set_eq by_year_cons_eq //. cbn [default].
        rewrite -app_assoc. cbn [app].
        destruct (dict_get acc y); cbn [default]; [|done].
        by destruct (_ ++ _) eqn:E; [destruct l|].
      * rewrite dict_get_set_ne // by_year_cons_ne //. congruence.
    + rewrite by_year_cons_ne //. congruence.
Qed.

Lemma group_steps_keys acc rows :
  NoDup (dict_keys acc) → NoDup (dict_keys (foldl group_step acc rows)).
Proof.
  revert acc. induction rows as [|r t IH]; intros acc Hacc; [done|].
  cbn [foldl]. apply IH. unfold group_step.
  destruct (row_year r); [by apply dict_keys_set_NoDup|done].
Qed.

Lemma add_year_rows_frame s y0 (g0 : list row) y :
  frame (add_year_rows s (y0, g0)) y
  = if decide (y0 = y) then frame s y0 ++ g0 else frame s y.
Proof.
  unfold add_year_rows, frame.
  cbn [dataframes_by_year count_records set_frames].
  destruct (decide (y0 = y)) as [<-|Hy].
  - rewrite dict_get_set_eq. cbn [default]. change (id ?x) with x.
    destruct (dict_get (dataframes_by_year s) y0) eqn:E;
      by rewrite ?E ?dict_get_set_eq.
  - rewrite dict_get_set_ne //.
    destruct (dict_get (dataframes_by_year s) y0) eqn:E; [done|].
    by rewrite dict_get_set_ne.
Qed.

Lemma add_groups_frame groups s y :
  NoDup (dict_keys groups) →
  frame (foldl add_year_rows s groups) y
  = frame s y ++ default [] (dict_get groups y).
Proof.
  revert s. induction groups as [|[y0 g0] t IH]; intros s Hnd; cbn [foldl].
  - by rewrite app_nil_r.
  - unfold dict_keys in Hnd. rewrite fmap_cons in Hnd.
    apply NoDup_cons in Hnd as [Hy0 Hnd]. rewrite IH //.
    rewrite add_year_rows_frame. cbn [dict_get].
    destruct (decide (y0 = y)) as [<-|Hy].
    + rewrite decide_True //. apply dict_get_None in Hy0. rewrite Hy0.
      cbn [default]. by rewrite app_nil_r.
    + by rewrite decide_False; [congruence|].
Qed.

(** X7. [add_rows] appends to the frame of each year the rows of the batch
    that carry that year, in the order of the batch, after what the frame
    held; rows without a usable year go nowhere. *)
Theorem add_rows_frame rows s y :
  frame (add_rows rows s) y = frame s y ++ by_year y rows.
Proof.
  unfold add_rows. destruct rows as [|r0 t]; [by rewrite app_nil_r|].
  rewrite add_groups_frame.
  { rewrite group_by_year_steps. apply group_steps_keys. constructor. }
  f_equal. rewrite group_by_year_steps group_steps_get. cbn [dict_get].
  by destruct (by_year y (r0 :: t)).
Qed.

Lemma grouped_rows_set acc y (r : row) :
  grouped_rows (dict_set acc y (default [] (dict_get acc y) ++ [r]))
  = S (grouped_rows acc).
Proof.
  unfold grouped_rows. induction acc as [|[k g] t IH]; [done|].
  cbn [dict_set dict_get]. destruct (decide (y = k)) as [->|Hy].
  - rewrite !fmap_cons. cbn [snd default sum_list sum_list_with].
    unfold id. rewrite length_app. cbn [length]. lia.
  - rewrite !fmap_cons. cbn [sum_list sum_list_with]. rewrite IH.
    unfold id. lia.
Qed.

Lemma dated_cons_Some (r : row) rows y :
  row_year r = Some y → dated (r :: rows) = r :: dated rows.
Proof. intros Hr. unfold dated. rewrite filter_cons_True; [by rewrite Hr|done]. Qed.

Lemma dated_cons_None (r : row) rows :
  row_year r = None → dated (r :: rows) = dated rows.
Proof.
  intros Hr. unfold dated. rewrite filter_cons_False //.
  rewrite Hr. by intros [? ?].
Qed.

Lemma group_steps_count acc rows :
  grouped_rows (foldl group_step acc rows)
  = grouped_rows acc + length (dated rows).
Proof.
  revert acc. induction rows as [|r t IH]; intros acc; cbn [foldl].
  - cbn. lia.
  - rewrite IH. unfold group_step. destruct (row_year r) as [y|] eqn:Hr.
    + rewrite grouped_rows_set (dated_cons_Some _ _ y) //. cbn [length]. lia.
    + by rewrite dated_cons_None.
Qed.

Lemma add_year_rows_total s y (g : list row) :
  total_records (add_year_rows s (y, g))
  = (total_records s + Z.of_nat (length g))%Z.
Proof. reflexivity. Qed.

Lemma add_groups_total groups s :
  total_records (foldl add_year_rows s groups)
  = (total_records s + Z.of_nat (grouped_rows groups))%Z.
Proof.
  unfold grouped_rows.
  revert s. induction groups as [|[y g] t IH]; intros s; cbn [foldl].
  - cbn. lia.
  - rewrite IH add_year_rows_total fmap_cons. cbn [snd].
    change (sum_list (?a :: ?l)) with (a + sum_list l). lia.
Qed.

(** X8. The counter of buffered rows grows by the number of rows of the
    batch that carry a usable year; the other rows are not counted. *)
Theorem add_rows_total rows s :
  total_records (add_rows rows s)
  = (total_records s + Z.of_nat (length (dated rows)))%Z.
Proof.
  unfold add_rows. destruct rows as [|r0 t]; [cbn; lia|].
  rewrite add_groups_total group_by_year_steps group_steps_count. cbn. lia.
Qed.

Lemma group_steps_undated acc rows :
  Forall (λ r, row_year r = None) rows → foldl group_step acc rows = acc.
Proof.
  induction 1 as [|r t Hr Ht IH]; [done|]. cbn [foldl].
  unfold group_step at 2. by rewrite Hr.
Qed.

(** A batch in which no row has a usable year leaves the scraper as it
    is. *)
Lemma add_rows_undated rows s :
  Forall (λ r, row_year r = None) rows → add_rows rows s = s.
Proof.
  intros Hrows. unfold add_rows. destruct rows as [|r0 t]; [done|].
  by rewrite group_by_year_steps group_steps_undated.
Qed.
End Buffer.

(** ** Flattener and buffer together *)

Section Undated.
Variable strptime_year : string → option Z.

(** X9. A record whose reception date is missing, not a string, or not
    parsed flattens into rows that [add_rows] discards: the frames and the
    counter of buffered rows stay as they were, so the record is never
    stored. *)
Theorem undated_record_not_buffered d rows s :
  transform_data strptime_year (JObj d) = Ok rows →
  year_of strptime_year (get d "fechaRecepcion") = JNull →
  add_rows rows s = s.
Proof.
  intros Hok Hyear. apply add_rows_undated, Forall_forall. intros r Hr.
  destruct (transform_data_identity _ _ _ _ Hok Hr) as [_ Hy].
  unfold row_year. by rewrite Hy Hyear.
Qed.

(** X10. A record with a usable year [y] puts all its rows, in order, at the
    end of the frame of [y] and nowhere else, and the counter grows by their
    number. *)
Theorem dated_record_buffered d rows s y :
  transform_data strptime_year (JObj d) = Ok rows →
  year_of strptime_year (get d "fechaRecepcion") = JInt y →
  y ≠ 0%Z →
  frame (add_rows rows s) y = frame s y ++ rows
  ∧ (∀ y', y' ≠ y → frame (add_rows rows s) y' = frame s y')
  ∧ total_records (add_rows rows s)
    = (total_records s + Z.of_nat (length rows))%Z.
Proof.
  intros Hok Hyear Hy.
  assert (∀ r, r ∈ rows → row_year r = Some y) as Hrows.
  { intros r Hr. destruct (transform_data_identity _ _ _ _ Hok Hr) as [_ Hry].
    unfold row_year. rewrite Hry Hyear.
    by destruct (Z.eqb_spec y 0). }
  assert (by_year y rows = rows) as Hby.
  { unfold by_year. clear Hok.
    induction rows as [|r t IH]; [done|].
    rewrite filter_cons_True; [apply Hrows, elem_of_cons; by left|].
    rewrite IH //. intros r' Hr'. apply Hrows, elem_of_cons. by right. }
  split_and!.
  - by rewrite add_rows_frame Hby.
  - intros y' Hy'. rewrite add_rows_frame.
    assert (by_year y' rows = []) as ->; [|by rewrite app_nil_r].
    apply filter_none. intros r Hr. rewrite (Hrows r Hr). congruence.
  - rewrite add_rows_total. do 3 f_equal. unfold dated. clear Hok Hby.
    induction rows as [|r t IH]; [done|].
    rewrite filter_cons_True.
    { rewrite (Hrows r); [apply elem_of_cons; by left|done]. }
    rewrite IH //. intros r' Hr'. apply Hrows, elem_of_cons. by right.
Qed.
End Undated.

(** ** The store, further *)

Section StoreMore.
Implicit Types (s : scraper) (w : world) (year : Z) (rows : list row).

(** X11. Whatever the outcome of the storage attempt, [save_to_parquet]
    touches one year only: the datasets and the frames of all other years
    are as before. *)
Theorem save_to_parquet_other_years year s w y :
  y ≠ year →
  files (save_to_parquet year s w).2 !! y = files w !! y
  ∧ frame (save_to_parquet year s w).1 y = frame s y.
Proof.
  intros Hy. destruct (decide (frame s year = [])) as [He|Hne].
  { by rewrite save_to_parquet_empty. }
  destruct (next_attempt w) eqn:Hok.
  - rewrite save_to_parquet_ok //. cbn [fst snd files].
    rewrite lookup_insert_ne; [done|]. by rewrite frame_set_ne.
  - by rewrite save_to_parquet_fail.
Qed.

(** X12. A successful save empties the frame, so that saving the same year
    again at once does nothing: no storage attempt, no line printed, the
    dataset unchanged. *)
Theorem save_twice_noop year s w :
  frame s year ≠ [] →
  next_attempt w = true →
  frame (save_to_parquet year s w).1 year = []
  ∧ save_to_parquet year (save_to_parquet year s w).1
      (save_to_parquet year s w).2
    = save_to_parquet year s w.
Proof.
  intros Hne Hok. rewrite save_to_parquet_ok //. cbn [fst snd].
  split; [apply frame_set_eq|].
  rewrite save_to_parquet_empty; [apply frame_set_eq|done].
Qed.

Lemma dedup_length df : length (drop_duplicates_last df) ≤ length df.
Proof.
  induction df as [|r t IH]; [done|]. cbn [drop_duplicates_last].
  case_bool_decide; cbn [length]; lia.
Qed.

(** X13. A merge loses no announcement and invents none: the identifiers of
    the stored dataset are those of the previous dataset together with those
    of the batch, and the dataset is no longer than the two together. *)
Theorem merge_keeps_identifiers year existing rows s w :
  files w !! year = Some existing →
  next_attempt w = true →
  rows ≠ [] →
  ∃ stored,
    files (flush year rows (s, w)).2 !! year = Some stored
    ∧ (∀ x, x ∈ codigo <$> stored
            ↔ x ∈ codigo <$> existing ∨ x ∈ codigo <$> rows)
    ∧ length stored ≤ length existing + length rows.
Proof.
  intros Hfile Hok Hrows. eexists. split_and!.
  - rewrite flush_ok_lookup; [done..|]. by rewrite Hfile.
  - intros x. cbn [merge_persist]. by rewrite dedup_codes fmap_app elem_of_app.
  - cbn [merge_persist]. etrans; [apply dedup_length|]. by rewrite length_app.
Qed.

(** X14. Layout of a merged dataset: first the rows of the previous dataset
    whose identifier is not in the batch, in their order (the last one of
    each identifier), then the batch, deduplicated. An announcement that is
    fetched again moves to the end of its dataset. *)
Theorem merge_layout year existing rows s w :
  files w !! year = Some existing →
  next_attempt w = true →
  rows ≠ [] →
  files (flush year rows (s, w)).2 !! year
  = Some (filter (λ r, codigo r ∉ codigo <$> rows)
            (drop_duplicates_last existing)
          ++ drop_duplicates_last rows).
Proof.
  intros Hfile Hok Hrows. rewrite flush_ok_lookup // Hfile.
  cbn [merge_persist]. by rewrite dedup_app.
Qed.
End StoreMore.

(** ** The driver, further *)

Section DriverMore.
Variable strptime_year : string → option Z.
Implicit Types (s : scraper) (w : world) (script : list response).

Local Abbreviation loop := (run_loop strptime_year).

(** X15. The fetcher hands data to the driver only for a 200 answer with a
    body that parses; the counter of 404 answers is then 0 and the request
    is counted. *)
Theorem fetch_data_only_on_200 r s data s' :
  fetch_convocatoria r s = (Some data, s') →
  truthy data = true →
  (∃ status, r = HttpResponse status (Some data) ∧ status = 200%Z)
  ∧ consecutive_404s s' = 0%Z
  ∧ total_requests s' = (total_requests s + 1)%Z.
Proof.
  unfold fetch_convocatoria. intros Hf Ht.
  destruct r as [status body| |]; [| |done].
  - destruct (status =? 404)%Z eqn:H404.
    { injection Hf as <- <-. done. }
    destruct (status =? 200)%Z eqn:H200.
    + apply Z.eqb_eq in H200. destruct body as [j|].
      * injection Hf as <- <-. split; [by eexists|done].
      * injection Hf as <- <-. done.
    + injection Hf as <- <-. done.
  - injection Hf as <- <-. done.
Qed.

(** One turn of the loop on an uneventful response, whatever follows. *)
Lemma loop_body_any r s w :
  (consecutive_404s s < MAX_CONSECUTIVE_404)%Z →
  uneventful strptime_year r = true →
  ∃ s1 w1,
    (∀ script, loop (r :: script) s w = loop script s1 w1)
    ∧ consecutive_404s s1 = count_404 (consecutive_404s s) r
    ∧ current_bdns s1 = (current_bdns s + 1)%Z.
Proof.
  intros Hc Hr.
  destruct (fetch_convocatoria r s) as [data s0] eqn:Hf.
  destruct (fetch_counter _ _ _ _ Hf) as [Hc0 Hb0].
  destruct (fetch_uneventful _ _ _ _ _ Hr Hf) as (j & -> & Hj).
  destruct (truthy j) eqn:Htj.
  - destruct Hj as [rows Hrows]; [done|].
    destruct (add_rows_cursor rows s0) as [Hb1 Hc1].
    destruct (periodic_due (add_rows rows s0)) eqn:Hdue.
    + destruct (save_all_cursor (add_rows rows s0) w) as [Hb2 Hc2].
      destruct (save_all (add_rows rows s0) w) as [s2 w2] eqn:Hsave.
      cbn [fst] in Hb2, Hc2. exists (advance s2), w2. split_and!.
      * intros script. cbn [run_loop]. rewrite bool_decide_eq_true_2 //.
        by rewrite Hf Htj Hrows Hdue Hsave.
      * cbn. congruence.
      * cbn. congruence.
    + exists (advance (add_rows rows s0)), w. split_and!.
      * intros script. cbn [run_loop]. rewrite bool_decide_eq_true_2 //.
        by rewrite Hf Htj Hrows Hdue.
      * cbn. congruence.
      * cbn. congruence.
  - exists (advance s0), w. split_and!.
    + intros script. cbn [run_loop]. rewrite bool_decide_eq_true_2 //.
      by rewrite Hf Htj.
    + cbn. congruence.
    + cbn. congruence.
Qed.

(** The loop runs through a prefix of uneventful responses that does not
    bring the counter to the threshold. *)
Lemma loop_prefix pre s w :
  Forall (λ r, uneventful strptime_year r = true) pre →
  probes_until_stop (consecutive_404s s) pre = None →
  ∃ s1 w1,
    (∀ rest, loop (pre ++ rest) s w = loop rest s1 w1)
    ∧ current_bdns s1 = (current_bdns s + Z.of_nat (length pre))%Z
    ∧ consecutive_404s s1 = foldl count_404 (consecutive_404s s) pre
    ∧ (consecutive_404s s1 < MAX_CONSECUTIVE_404)%Z.
Proof.
  revert s w. induction pre as [|r t IH]; intros s w Hq Hp.
  - cbn [probes_until_stop] in Hp. case_bool_decide as Hc; [|done].
    exists s, w. cbn. split_and!; try done. lia.
  - apply Forall_cons in Hq as [Hr Ht].
    cbn [probes_until_stop] in Hp. case_bool_decide as Hc; [|done].
    destruct (probes_until_stop (count_404 (consecutive_404s s) r) t)
      as [n|] eqn:Hp'; [done|].
    destruct (loop_body_any r s w Hc Hr) as (s0 & w0 & Hstep & Hc0 & Hb0).
    rewrite -Hc0 in Hp'.
    destruct (IH s0 w0 Ht Hp') as (s1 & w1 & Hrun & Hb1 & Hc1 & Hlim).
    exists s1, w1. split_and!.
    + intros rest. by rewrite -app_comm_cons Hstep Hrun.
    + rewrite Hb1 Hb0. cbn [length]. lia.
    + by rewrite Hc1 Hc0.
    + done.
Qed.

(** X16. An interrupt during a request ends the loop at once with
    [UserCancelled], in the state the loop had reached before that request:
    the cursor still points at the interrupted identifier, which is neither
    counted nor skipped, and nothing after the interrupt is read. *)
Theorem interrupt_stops_loop pre rest s w :
  Forall (λ r, uneventful strptime_year r = true) pre →
  probes_until_stop (consecutive_404s s) pre = None →
  ∃ s' w',
    loop (pre ++ KeyboardInterrupt :: rest) s w = (UserCancelled, s', w')
    ∧ loop pre s w = (StillRunning, s', w')
    ∧ current_bdns s' = (current_bdns s + Z.of_nat (length pre))%Z.
Proof.
  intros Hq Hp.
  destruct (loop_prefix pre s w Hq Hp) as (s1 & w1 & Hrun & Hb & Hc & Hlim).
  exists s1, w1. split_and!; [| |done].
  - rewrite Hrun. cbn [run_loop fetch_convocatoria].
    by rewrite bool_decide_eq_true_2.
  - rewrite -(app_nil_r pre) Hrun. cbn [run_loop].
    by rewrite bool_decide_eq_true_2.
Qed.

(** X17. A 200 answer whose body is truthy but makes [transform_data] raise
    (a JSON array, a record with a null [organo]) ends the loop with that
    exception uncaught: the request is counted, the counter of 404 answers
    is reset, the cursor is not advanced, and the world is as the loop left
    it before. *)
Theorem bad_record_escapes pre status data e rest s w :
  Forall (λ r, uneventful strptime_year r = true) pre →
  probes_until_stop (consecutive_404s s) pre = None →
  status = 200%Z →
  truthy data = true →
  transform_data strptime_year data = Raise e →
  ∃ s1 s' w',
    loop pre s w = (StillRunning, s1, w')
    ∧ loop (pre ++ HttpResponse status (Some data) :: rest) s w
      = (Uncaught e, s', w')
    ∧ current_bdns s' = (current_bdns s + Z.of_nat (length pre))%Z
    ∧ consecutive_404s s' = 0%Z
    ∧ total_requests s' = (total_requests s1 + 1)%Z
    ∧ dataframes_by_year s' = dataframes_by_year s1.
Proof.
  intros Hq Hp -> Ht He.
  destruct (loop_prefix pre s w Hq Hp) as (s1 & w1 & Hrun & Hb & Hc & Hlim).
  exists s1, (set_consecutive (count_request s1) 0), w1. split_and!; try done.
  - rewrite -(app_nil_r pre) Hrun. cbn [run_loop].
    by rewrite bool_decide_eq_true_2.
  - rewrite Hrun. cbn [run_loop fetch_convocatoria].
    rewrite bool_decide_eq_true_2 //. cbn [Z.eqb Pos.eqb].
    by rewrite Ht He.
Qed.

Lemma save_to_parquet_counts year s w :
  start_bdns (save_to_parquet year s w).1 = start_bdns s
  ∧ total_requests (save_to_parquet year s w).1 = total_requests s
  ∧ total_records (save_to_parquet year s w).1 = total_records s.
Proof. unfold save_to_parquet. by repeat case_match. Qed.

Lemma save_steps_counts years s w :
  start_bdns (foldl save_step (s, w) years).1 = start_bdns s
  ∧ total_requests (foldl save_step (s, w) years).1 = total_requests s
  ∧ total_records (foldl save_step (s, w) years).1 = total_records s.
Proof.
  revert s w. induction years as [|y t IH]; intros s w; [done|].
  cbn [foldl]. destruct (decide (frame s y = [])) as [He|Hne].
  - rewrite save_step_empty //.
  - rewrite save_step_nonempty //.
    destruct (save_to_parquet_counts y s w) as (H1 & H2 & H3).
    destruct (save_to_parquet y s w) as [s1 w1]. cbn [fst] in H1, H2, H3.
    destruct (IH s1 w1) as (H4 & H5 & H6). split_and!; congruence.
Qed.

Lemma add_rows_counts rows s :
  start_bdns (add_rows rows s) = start_bdns s
  ∧ total_requests (add_rows rows s) = total_requests s.
Proof.
  unfold add_rows. destruct rows as [|r0 rows0]; [done|].
  generalize (group_by_year (r0 :: rows0)). intros groups. revert s.
  induction groups as [|[y g] t IH]; intros s; [done|].
  cbn [foldl]. destruct (IH (add_year_rows s (y, g))) as [H1 H2].
  split; [by rewrite H1|by rewrite H2].
Qed.

Lemma fetch_counts r s data s' :
  fetch_convocatoria r s = (data, s') →
  start_bdns s' = start_bdns s
  ∧ total_records s' = total_records s
  ∧ (total_requests s ≤ total_requests s' ≤ total_requests s + 1)%Z.
Proof.
  unfold fetch_convocatoria. intros Hf.
  destruct r as [status body| |]; repeat case_match; simplify_eq; cbn;
    split_and!; try done; lia.
Qed.

(** X18. Whatever the responses, the loop never changes the start
    identifier, moves the cursor forward by at most one per response, counts
    at most one request per response, and never lowers the counter of
    buffered rows. *)
Theorem run_loop_bounds script s w reason s' w' :
  run_loop strptime_year script s w = (reason, s', w') →
  start_bdns s' = start_bdns s
  ∧ (current_bdns s ≤ current_bdns s'
     ≤ current_bdns s + Z.of_nat (length script))%Z
  ∧ (total_requests s ≤ total_requests s'
     ≤ total_requests s + Z.of_nat (length script))%Z
  ∧ (total_records s ≤ total_records s')%Z.
Proof.
  revert s w. induction script as [|r t IH]; intros s w;
    cbn [run_loop]; case_bool_decide as Hc;
    try (intros [= <- <- <-]; cbn [length]; split_and!; try done; lia).
  destruct (fetch_convocatoria r s) as [[data|] s0] eqn:Hf.
  2: { intros [= <- <- <-].
       destruct (fetch_counts _ _ _ _ Hf) as (H1 & H2 & H3).
       destruct (fetch_counter _ _ _ _ Hf) as [_ H4].
       cbn [length]. split_and!; try done; lia. }
  destruct (fetch_counts _ _ _ _ Hf) as (H1 & H2 & H3).
  destruct (fetch_counter _ _ _ _ Hf) as [_ H4].
  destruct (truthy data).
  2: { intros (K1 & K2 & K3 & K4)%IH. cbn in K1, K2, K3, K4.
       cbn [length]. split_and!; try congruence; lia. }
  destruct (transform_data strptime_year data) as [rows|e].
  2: { intros [= <- <- <-]. cbn [length]. split_and!; try done; lia. }
  destruct (add_rows_counts rows s0) as [A1 A2].
  destruct (add_rows_cursor rows s0) as [A3 _].
  pose proof (add_rows_total rows s0) as A4.
  destruct (periodic_due (add_rows rows s0)).
  - destruct (save_steps_counts
                (dict_keys (dataframes_by_year (add_rows rows s0)))
                (add_rows rows s0) w) as (S1 & S2 & S3).
    destruct (save_all_cursor (add_rows rows s0) w) as [S4 _].
    unfold save_all in *.
    destruct (foldl save_step (add_rows rows s0, w) _) as [s2 w2].
    cbn [fst] in S1, S2, S3, S4.
    intros (K1 & K2 & K3 & K4)%IH. cbn in K1, K2, K3, K4.
    cbn [length]. split_and!; try congruence; lia.
  - intros (K1 & K2 & K3 & K4)%IH. cbn in K1, K2, K3, K4.
    cbn [length]. split_and!; try congruence; lia.
Qed.

(** X19. The periodic flush, on a record that is buffered: when the counter
    of buffered rows lands on a positive multiple of 100 and storage works,
    the frames of all years are flushed before the next request (those of
    other years too), each into the merge of its dataset; otherwise the
    world is not touched in this turn. *)
Theorem periodic_flush_rule status data rows script s w :
  (consecutive_404s s < MAX_CONSECUTIVE_404)%Z →
  status = 200%Z →
  truthy data = true →
  transform_data strptime_year data = Ok rows →
  tidy s w →
  let s1 := add_rows rows (set_consecutive (count_request s) 0) in
  (periodic_due s1 = true →
     ∃ s2 w2,
       loop (HttpResponse status (Some data) :: script) s w
       = loop script (advance s2) w2
       ∧ (∀ y, frame s2 y = [])
       ∧ (∀ y, frame s1 y ≠ [] →
            files w2 !! y = Some (merge_persist (files w !! y) (frame s1 y)))
       ∧ (∀ y, frame s1 y = [] → files w2 !! y = files w !! y))
  ∧ (periodic_due s1 = false →
       loop (HttpResponse status (Some data) :: script) s w
       = loop script (advance s1) w).
Proof.
  intros Hc -> Ht Hrows [Hk Hw] s1. split; intros Hdue.
  - assert (NoDup (dict_keys (dataframes_by_year s1))) as Hk1
      by by apply add_rows_keys.
    destruct (save_steps_healthy (dict_keys (dataframes_by_year s1)) s1 w Hk1 Hw)
      as (s2 & w2 & Hpass & Hin & Hout & Hsaved & Hkept & _).
    exists s2, w2. split_and!.
    + cbn [run_loop fetch_convocatoria]. rewrite bool_decide_eq_true_2 //.
      cbn [Z.eqb Pos.eqb]. rewrite Ht Hrows. fold s1. rewrite Hdue.
      unfold save_all. by rewrite Hpass.
    + intros y. destruct (decide (y ∈ dict_keys (dataframes_by_year s1)))
        as [Hy|Hy]; [by apply Hin|].
      rewrite Hout //. destruct (decide (frame s1 y = [])) as [|Hne]; [done|].
      by apply frame_nonempty_key in Hne.
    + intros y Hne. apply Hsaved; [by apply frame_nonempty_key|done].
    + intros y He. apply Hkept. by right.
  - cbn [run_loop fetch_convocatoria]. rewrite bool_decide_eq_true_2 //.
    cbn [Z.eqb Pos.eqb]. rewrite Ht Hrows. fold s1. by rewrite Hdue.
Qed.

End DriverMore.

(** ** The resume point, further *)

Section ResumeMore.
Variable int_of_str : string → option Z.

Local Abbreviation column :=
  (mapM (λ r : row, as_int int_of_str (codigo r))).

Lemma mapM_Forall2 {A B} (f : A → result B) (l : list A) (bs : list B) :
  Forall2 (λ a b, f a = Ok b) l bs → mapM f l = Ok bs.
Proof.
  induction 1 as [|a b l bs Hab H IH]; [done|].
  cbn [mapM]. rewrite Hab. cbn. by rewrite IH.
Qed.

Lemma mapM_raise {A B} (f : A → result B) (l : list A) a e :
  a ∈ l → f a = Raise e → ∃ e', mapM f l = Raise e'.
Proof.
  induction l as [|a0 t IH]; [by intros ?%not_elem_of_nil|].
  intros [->|Ha]%elem_of_cons Hf; cbn [mapM].
  - rewrite Hf. by eexists.
  - destruct (f a0) as [b|e0]; [|by eexists]. cbn.
    destruct (IH Ha Hf) as [e' ->]. by eexists.
Qed.

Lemma columns_converted (parquet_files : list (list row)) (ids : list (list Z)) :
  Forall2 (Forall2 (λ r z, as_int int_of_str (codigo r) = Ok z))
    parquet_files ids →
  mapM column parquet_files = Ok ids.
Proof.
  intros H. apply mapM_Forall2. eapply Forall2_impl; [exact H|].
  intros df zs Hdf. by apply mapM_Forall2.
Qed.

(** X20. The resume point for identifier columns of any convertible kind
    (integers, digit strings, booleans): with at least one row in the files,
    it is one past the maximum of the converted identifiers. *)
Theorem resume_point_converted (parquet_files : list (list row))
    (ids : list (list Z)) :
  Forall2 (Forall2 (λ r z, as_int int_of_str (codigo r) = Ok z))
    parquet_files ids →
  concat ids ≠ [] →
  ∃ max_bdns,
    find_last_bdns int_of_str parquet_files = Ok (max_bdns + 1)%Z
    ∧ max_bdns ∈ concat ids
    ∧ ∀ z, z ∈ concat ids → (z ≤ max_bdns)%Z.
Proof.
  intros Hcols Hne. unfold find_last_bdns.
  destruct parquet_files as [|df fs].
  { apply Forall2_nil_inv_l in Hcols. by subst. }
  rewrite (columns_converted _ ids) //. cbn [mbind result_bind].
  destruct (concat ids) as [|z t] eqn:Hids; [done|]. cbn [py_max].
  destruct (foldl_max_bounds z t) as [Hin Hle]. by eexists.
Qed.

(** X21. Dataset files that hold no row at all do not lead to the fallback
    start: [max] of the empty list raises [ValueError]. *)
Theorem find_last_bdns_empty_files (parquet_files : list (list row)) :
  parquet_files ≠ [] →
  Forall (λ df, df = []) parquet_files →
  find_last_bdns int_of_str parquet_files = Raise ValueError.
Proof.
  intros Hne Hempty. unfold find_last_bdns.
  destruct parquet_files as [|df fs]; [done|].
  rewrite (columns_converted _ ((λ _, []) <$> (df :: fs))).
  { apply Forall2_fmap_r, Forall_Forall2_diag.
    eapply Forall_impl; [exact Hempty|]. intros ? ->. constructor. }
  cbn [mbind result_bind].
  assert (concat ((λ _ : list row, @nil Z) <$> df :: fs) = []) as ->; [|done].
  generalize (df :: fs). intros l. induction l as [|? ? IH]; [done|].
  by rewrite fmap_cons.
Qed.

(** X22. One row without identifier (a null, or the column missing) in any
    file makes [find_last_bdns] raise: no resume point is computed. *)
Theorem find_last_bdns_null_identifier (parquet_files : list (list row))
    (df : list row) (r : row) :
  df ∈ parquet_files →
  r ∈ df →
  codigo r = JNull →
  ∃ e, find_last_bdns int_of_str parquet_files = Raise e.
Proof.
  intros Hdf Hr Hnull.
  assert (∃ e, column df = Raise e) as [e He].
  { apply (mapM_raise _ df r TypeError Hr). by rewrite Hnull. }
  destruct (mapM_raise column parquet_files df e Hdf He) as [e' He'].
  unfold find_last_bdns. destruct parquet_files as [|df0 fs].
  { by apply not_elem_of_nil in Hdf. }
  rewrite He'. by eexists.
Qed.

(** X23. The resume point does not depend on the order in which the files
    are listed nor on the order of the rows in them. *)
Theorem find_last_bdns_order (files1 files2 : list (list row))
    (ids1 ids2 : list (list Z)) :
  Forall2 (Forall2 (λ r z, as_int int_of_str (codigo r) = Ok z)) files1 ids1 →
  Forall2 (Forall2 (λ r z, as_int int_of_str (codigo r) = Ok z)) files2 ids2 →
  concat ids1 ≡ₚ concat ids2 →
  concat ids1 ≠ [] →
  find_last_bdns int_of_str files1 = find_last_bdns int_of_str files2.
Proof.
  intros H1 H2 Hperm Hne.
  assert (concat ids2 ≠ []) as Hne2.
  { intros E. rewrite E in Hperm. by apply Permutation_nil_r in Hperm. }
  destruct (resume_point_converted _ _ H1 Hne) as (m1 & -> & Hin1 & Hle1).
  destruct (resume_point_converted _ _ H2 Hne2) as (m2 & -> & Hin2 & Hle2).
  assert (m1 ≤ m2)%Z by (apply Hle2; by rewrite -Hperm).
  assert (m2 ≤ m1)%Z by (apply Hle1; by rewrite Hperm).
  do 2 f_equal. lia.
Qed.
End ResumeMore.

(** ** The further properties at sample inputs *)

Lemma two_rows_ok :
  transform_data strptime_Ymd_year (JObj two_instruments) = Ok two_rows.
Proof. by vm_compute. Qed.

Lemma undated_rows_ok :
  transform_data strptime_Ymd_year (JObj undated_record) = Ok undated_rows.
Proof. by vm_compute. Qed.

Lemma sample_script_uneventful :
  Forall (λ r, uneventful strptime_Ymd_year r = true)
    [found two_instruments; not_found; server_error].
Proof. by apply (bool_decide_unpack _); vm_compute. Qed.

Lemma transform_data_nonempty_witness :
  transform_data strptime_Ymd_year (JObj two_instruments) = Ok two_rows
  ∧ two_rows ≠ [].
Proof.
  split; [exact two_rows_ok|].
  exact (transform_data_nonempty strptime_Ymd_year _ _ two_rows_ok).
Defined.

Lemma transform_data_columns_witness :
  ∃ r, r ∈ two_rows ∧ dict_keys r = row_columns ∧ length (dict_keys r) = 27.
Proof.
  assert (∃ r, two_rows !! 1 = Some r) as [r Hr] by (by eexists).
  apply list_elem_of_lookup_2 in Hr. exists r. split; [done|].
  exact (transform_data_columns strptime_Ymd_year _ _ r two_rows_ok Hr).
Defined.

Lemma transform_data_identity_witness :
  ∃ r, r ∈ two_rows ∧ codigo r = JInt 865179 ∧ get r "year" = JInt 2024.
Proof.
  assert (∃ r, two_rows !! 1 = Some r) as [r Hr] by (by eexists).
  apply list_elem_of_lookup_2 in Hr. exists r. split; [done|].
  exact (transform_data_identity strptime_Ymd_year two_instruments _ r
           two_rows_ok Hr).
Defined.

Lemma transform_data_shape_witness :
  ∃ d o,
    JObj two_instruments = JObj d
    ∧ get_default d "organo" (JObj []) = JObj o
    ∧ well_formed_dim d "instrumentos"
    ∧ well_formed_dim d "tiposBeneficiarios"
    ∧ well_formed_dim d "sectores"
    ∧ well_formed_dim d "regiones".
Proof. exact (transform_data_shape strptime_Ymd_year _ _ two_rows_ok). Defined.

Lemma transform_data_organo_not_object_witness :
  dict_get null_organo_record "organo" = Some JNull
  ∧ ¬ is_obj JNull
  ∧ transform_data strptime_Ymd_year (JObj null_organo_record)
    = Raise AttributeError.
Proof.
  assert (¬ is_obj JNull) as Hn by (by intros []).
  split_and!; [done|exact Hn|].
  exact (transform_data_organo_not_object strptime_Ymd_year null_organo_record
           JNull eq_refl Hn).
Defined.

Lemma transform_data_product_witness :
  dimension_columns <$> two_rows
  = [ (JStr "Subvencion", JStr "PYME", JNull, JNull, JStr "Madrid");
      (JStr "Prestamo", JStr "PYME", JNull, JNull, JStr "Madrid") ].
Proof.
  rewrite (transform_data_product strptime_Ymd_year two_instruments two_rows
             two_rows_ok).
  reflexivity.
Defined.

Lemma undated_record_not_buffered_witness :
  transform_data strptime_Ymd_year (JObj undated_record) = Ok undated_rows
  ∧ year_of strptime_Ymd_year (get undated_record "fechaRecepcion") = JNull
  ∧ add_rows undated_rows nearly_hundred = nearly_hundred.
Proof.
  split_and!; [exact undated_rows_ok|reflexivity|].
  exact (undated_record_not_buffered strptime_Ymd_year undated_record _
           nearly_hundred undated_rows_ok eq_refl).
Defined.

Lemma dated_record_buffered_witness :
  frame (add_rows two_rows nearly_hundred) 2024 = two_rows
  ∧ (∀ y', y' ≠ 2024%Z →
       frame (add_rows two_rows nearly_hundred) y' = frame nearly_hundred y')
  ∧ total_records (add_rows two_rows nearly_hundred) = 100%Z.
Proof.
  assert (2024 ≠ 0)%Z as Hy by done.
  exact (dated_record_buffered strptime_Ymd_year two_instruments two_rows
           nearly_hundred 2024 two_rows_ok eq_refl Hy).
Defined.

Lemma save_to_parquet_other_years_witness :
  let w := with_dataset 2024 [mini_row 1 "old"] in
  2024%Z ≠ 2023%Z
  ∧ files (save_to_parquet 2023 nearly_hundred w).2 !! 2024%Z = files w !! 2024%Z
  ∧ frame (save_to_parquet 2023 nearly_hundred w).1 2024 = frame nearly_hundred 2024.
Proof.
  intros w. assert (2024%Z ≠ 2023%Z) as Hy by done.
  split; [exact Hy|].
  exact (save_to_parquet_other_years 2023 nearly_hundred w 2024 Hy).
Defined.

Lemma save_twice_noop_witness :
  let w := with_dataset 2024 [mini_row 1 "old"] in
  frame nearly_hundred 2023 ≠ []
  ∧ next_attempt w = true
  ∧ frame (save_to_parquet 2023 nearly_hundred w).1 2023 = []
  ∧ save_to_parquet 2023 (save_to_parquet 2023 nearly_hundred w).1
      (save_to_parquet 2023 nearly_hundred w).2
    = save_to_parquet 2023 nearly_hundred w.
Proof.
  intros w. assert (frame nearly_hundred 2023 ≠ []) as Hne by done.
  split_and!; [exact Hne|reflexivity|..];
    by destruct (save_twice_noop 2023 nearly_hundred w Hne eq_refl).
Defined.

Lemma merge_keeps_identifiers_witness :
  let w := with_dataset 2024 [mini_row 7 "V1"; mini_row 8 "other"] in
  let rows := [mini_row 7 "V2"; mini_row 9 "new"] in
  ∃ stored,
    files (flush 2024 rows (init 1, w)).2 !! 2024%Z = Some stored
    ∧ (∀ x, x ∈ codigo <$> stored
            ↔ x ∈ codigo <$> [mini_row 7 "V1"; mini_row 8 "other"]
              ∨ x ∈ codigo <$> rows)
    ∧ length stored ≤ 2 + 2.
Proof.
  intros w rows. assert (rows ≠ []) as Hrows by done.
  exact (merge_keeps_identifiers 2024 _ rows (init 1) w eq_refl eq_refl Hrows).
Defined.

Lemma merge_layout_witness :
  let w := with_dataset 2024 [mini_row 7 "V1"; mini_row 8 "other"] in
  let rows := [mini_row 7 "V2"; mini_row 9 "new"] in
  files (flush 2024 rows (init 1, w)).2 !! 2024%Z
  = Some [mini_row 8 "other"; mini_row 7 "V2"; mini_row 9 "new"].
Proof.
  intros w rows. assert (rows ≠ []) as Hrows by done.
  rewrite (merge_layout 2024 [mini_row 7 "V1"; mini_row 8 "other"] rows
             (init 1) w eq_refl eq_refl Hrows).
  by vm_compute.
Defined.

Lemma fetch_data_only_on_200_witness :
  ∃ s',
    fetch_convocatoria (found two_instruments) nearly_hundred
    = (Some (JObj two_instruments), s')
    ∧ consecutive_404s s' = 0%Z
    ∧ total_requests s' = 50%Z.
Proof.
  eexists. split; [reflexivity|].
  by destruct (fetch_data_only_on_200 (found two_instruments) nearly_hundred
                 (JObj two_instruments) _ eq_refl eq_refl) as (_ & ? & ?).
Defined.

Lemma interrupt_stops_loop_witness :
  let pre := [found two_instruments; not_found; server_error] in
  ∃ s' w',
    run_loop strptime_Ymd_year (pre ++ KeyboardInterrupt :: [not_found])
      fresh.1 fresh.2
    = (UserCancelled, s', w')
    ∧ run_loop strptime_Ymd_year pre fresh.1 fresh.2 = (StillRunning, s', w')
    ∧ current_bdns s' = (current_bdns fresh.1 + 3)%Z.
Proof.
  intros pre.
  exact (interrupt_stops_loop strptime_Ymd_year pre [not_found] fresh.1 fresh.2
           sample_script_uneventful eq_refl).
Defined.

Lemma bad_record_escapes_witness :
  let pre := [found two_instruments; not_found; server_error] in
  ∃ s1 s' w',
    run_loop strptime_Ymd_year pre fresh.1 fresh.2 = (StillRunning, s1, w')
    ∧ run_loop strptime_Ymd_year (pre ++ [found null_organo_record])
        fresh.1 fresh.2
      = (Uncaught AttributeError, s', w')
    ∧ current_bdns s' = (current_bdns fresh.1 + 3)%Z
    ∧ consecutive_404s s' = 0%Z
    ∧ total_requests s' = (total_requests s1 + 1)%Z
    ∧ dataframes_by_year s' = dataframes_by_year s1.
Proof.
  intros pre.
  exact (bad_record_escapes strptime_Ymd_year pre 200 (JObj null_organo_record)
           AttributeError [] fresh.1 fresh.2 sample_script_uneventful
           eq_refl eq_refl eq_refl eq_refl).
Defined.

Lemma run_loop_bounds_witness :
  let script := [found two_instruments; RequestException; not_found] in
  ∃ reason s' w',
    run_loop strptime_Ymd_year script fresh.1 fresh.2 = (reason, s', w')
    ∧ start_bdns s' = start_bdns fresh.1
    ∧ (current_bdns fresh.1 ≤ current_bdns s' ≤ current_bdns fresh.1 + 3)%Z
    ∧ (total_requests fresh.1 ≤ total_requests s'
       ≤ total_requests fresh.1 + 3)%Z
    ∧ (total_records fresh.1 ≤ total_records s')%Z.
Proof.
  intros script.
  destruct (run_loop strptime_Ymd_year script fresh.1 fresh.2)
    as [[reason s'] w'] eqn:Hrun.
  exists reason, s', w'. split; [done|].
  exact (run_loop_bounds strptime_Ymd_year script fresh.1 fresh.2 _ _ _ Hrun).
Defined.

Lemma periodic_flush_rule_witness :
  let w := with_dataset 2024 [mini_row 1 "old"] in
  tidy nearly_hundred w
  ∧ ∃ s2 w2,
      run_loop strptime_Ymd_year [found two_instruments] nearly_hundred w
      = run_loop strptime_Ymd_year [] (advance s2) w2
      ∧ (∀ y, frame s2 y = [])
      ∧ length <$> files w2 !! 2023%Z = Some 98.
Proof.
  intros w.
  assert (tidy nearly_hundred w) as Ht.
  { split; [|constructor]. by apply (bool_decide_unpack _); vm_compute. }
  split; [exact Ht|].
  destruct (periodic_flush_rule strptime_Ymd_year 200 (JObj two_instruments)
              two_rows [] nearly_hundred w) as [Hdue _];
    [done|done|done|exact two_rows_ok|exact Ht|].
  destruct (Hdue eq_refl) as (s2 & w2 & Hrun & Hempty & Hsaved & _).
  exists s2, w2. split_and!; [done..|].
  rewrite (Hsaved 2023%Z); [by vm_compute|]. by vm_compute.
Defined.

Lemma resume_point_converted_witness :
  let parquet_files := [[string_row "100"; string_row "105"]; [string_row "200"]] in
  ∃ max_bdns,
    find_last_bdns int_of_digits parquet_files = Ok (max_bdns + 1)%Z
    ∧ max_bdns ∈ [100; 105; 200]%Z
    ∧ ∀ z, z ∈ [100; 105; 200]%Z → (z ≤ max_bdns)%Z.
Proof.
  intros parquet_files.
  assert (Forall2 (Forall2 (λ r z, as_int int_of_digits (codigo r) = Ok z))
            parquet_files [[100; 105]; [200]]%Z) as Hcols
    by (repeat constructor).
  assert (concat [[100; 105]; [200]]%Z ≠ []) as Hne by done.
  exact (resume_point_converted int_of_digits parquet_files _ Hcols Hne).
Defined.

Lemma find_last_bdns_empty_files_witness :
  [[] : list row; []] ≠ []
  ∧ Forall (λ df : list row, df = []) [[]; []]
  ∧ find_last_bdns int_of_digits [[]; []] = Raise ValueError.
Proof.
  assert ([[] : list row; []] ≠ []) as Hne by done.
  assert (Forall (λ df : list row, df = []) [[]; []]) as He
    by (by repeat constructor).
  split_and!; [exact Hne|exact He|].
  exact (find_last_bdns_empty_files int_of_digits _ Hne He).
Defined.

Lemma find_last_bdns_null_identifier_witness :
  let df := [mini_row 100 "a"; [("year", JInt 2024)]] in
  ∃ e, find_last_bdns int_of_digits [[mini_row 5 "b"]; df] = Raise e.
Proof.
  intros df.
  assert (df ∈ [[mini_row 5 "b"]; df]) as Hdf
    by (by apply (bool_decide_unpack _); vm_compute).
  assert ([("year", JInt 2024)] ∈ df) as Hr
    by (by apply (bool_decide_unpack _); vm_compute).
  exact (find_last_bdns_null_identifier int_of_digits _ df _ Hdf Hr eq_refl).
Defined.

Lemma find_last_bdns_order_witness :
  find_last_bdns int_of_digits
    [[mini_row 100 "a"; mini_row 105 "b"]; [mini_row 200 "c"]]
  = find_last_bdns int_of_digits
      [[mini_row 200 "c"]; [mini_row 105 "b"; mini_row 100 "a"]].
Proof.
  apply (find_last_bdns_order int_of_digits _ _
           [[100; 105]; [200]]%Z [[200]; [105; 100]]%Z).
  - by repeat constructor.
  - by repeat constructor.
  - cbn [concat app]. by apply (bool_decide_unpack _); vm_compute.
  - done.
Defined.
